(** * rook-s3-nano: the ObjectStore reconciler and its resource-spec builder

    A shallow embedding of [controllers/spec.go] and
    [controllers/objectstore_controller.go] (with the API types of
    [api/v1alpha1]), and the properties of the reconciliation engine that
    its specification states. *)

From Stdlib Require Import String Ascii List ZArith Bool Lia.
Import ListNotations.
Open Scope string_scope.

(* ================================================================= *)
(** ** Go standard-library helpers *)

Module GoStrings.

(** [strings.Replace(s, old, new, -1)] for a one-byte [old], the only
    form the repository uses ([" "], ["-"] and ["_"]): every occurrence of
    the byte is replaced by [new]. *)
Fixpoint Replace (s : string) (old : ascii) (new : string) : string :=
  match s with
  | EmptyString => EmptyString
  | String c s' =>
      if Ascii.eqb c old then new ++ Replace s' old new
      else String c (Replace s' old new)
  end.

(** One byte is ASCII (below 0x80). *)
Definition isASCIIByte (c : ascii) : bool := (Ascii.nat_of_ascii c <? 128)%nat.

Fixpoint isASCII (s : string) : bool :=
  match s with
  | EmptyString => true
  | String c s' => isASCIIByte c && isASCII s'
  end.

(** The ASCII case of [unicode.ToLower] on one byte. *)
Definition lowerByte (c : ascii) : ascii :=
  let n := Ascii.nat_of_ascii c in
  if ((65 <=? n) && (n <=? 90))%nat then Ascii.ascii_of_nat (n + 32) else c.

Fixpoint lowerASCII (s : string) : string :=
  match s with
  | EmptyString => EmptyString
  | String c s' => String (lowerByte c) (lowerASCII s')
  end.

Section ToLower.
(** The Unicode-table path of [strings.ToLower]
    ([strings.Map(unicode.ToLower, s)]), taken by Go when the string
    holds a byte of 0x80 or above; it is library code, kept abstract. *)
Variable unicodeToLower : string -> string.

(** [strings.ToLower]: the ASCII fast path, otherwise the rune map. *)
Definition ToLower (s : string) : string :=
  if isASCII s then lowerASCII s else unicodeToLower s.
End ToLower.

(** [[]byte(s)] for a Go string: its bytes as 8-bit integers. *)
Fixpoint bytesOf (s : string) : list Z :=
  match s with
  | EmptyString => []
  | String c s' => Z.of_nat (Ascii.nat_of_ascii c) :: bytesOf s'
  end.

End GoStrings.

(* ================================================================= *)
(** ** [crypto/sha256.Sum256] (FIPS 180-4) and [encoding/hex] *)

Module SHA256.
Open Scope Z_scope.

Definition mask32 : Z := Z.ones 32.
Definition w32 (x : Z) : Z := Z.land x mask32.
Definition add32 (x y : Z) : Z := w32 (x + y).
Definition rotr (x : Z) (n : Z) : Z :=
  Z.lor (Z.shiftr x n) (w32 (Z.shiftl x (32 - n))).
Definition shr (x : Z) (n : Z) : Z := Z.shiftr x n.

Definition Ch (e f g : Z) : Z := Z.lxor (Z.land e f) (Z.land (Z.lxor e mask32) g).
Definition Maj (a b c : Z) : Z :=
  Z.lxor (Z.land a b) (Z.lxor (Z.land a c) (Z.land b c)).
Definition Sigma0 (a : Z) : Z := Z.lxor (rotr a 2) (Z.lxor (rotr a 13) (rotr a 22)).
Definition Sigma1 (e : Z) : Z := Z.lxor (rotr e 6) (Z.lxor (rotr e 11) (rotr e 25)).
Definition sigma0 (w : Z) : Z := Z.lxor (rotr w 7) (Z.lxor (rotr w 18) (shr w 3)).
Definition sigma1 (w : Z) : Z := Z.lxor (rotr w 17) (Z.lxor (rotr w 19) (shr w 10)).

(** The first 64 primes. *)
Definition isPrime (n : Z) : bool :=
  forallb (fun d => negb (n mod d =? 0)) (map Z.of_nat (seq 2 (Z.to_nat n - 2))).

Definition primes : list Z :=
  firstn 64 (filter isPrime (map Z.of_nat (seq 2 310))).

(** Integer cube root by bisection, for [n < 2^120]. *)
Fixpoint icbrt_go (fuel : nat) (lo hi n : Z) : Z :=
  match fuel with
  | O => lo
  | S f =>
      if hi - lo <=? 1 then lo
      else let m := (lo + hi) / 2 in
           if m * m * m <=? n then icbrt_go f m hi n else icbrt_go f lo m n
  end.

Definition icbrt (n : Z) : Z := icbrt_go 64 0 (2 ^ 40) n.

(** Round constants: the first 32 bits of the fractional parts of the
    cube roots of the first 64 primes. *)
Definition K : list Z := map (fun p => icbrt (p * 2 ^ 96) mod 2 ^ 32) primes.

(** Initial hash value: the first 32 bits of the fractional parts of the
    square roots of the first 8 primes. *)
Definition H0 : list Z := map (fun p => Z.sqrt (p * 2 ^ 64) mod 2 ^ 32) (firstn 8 primes).

(** Big-endian encoding of [x] on [n] bytes. *)
Fixpoint be_bytes (n : nat) (x : Z) : list Z :=
  match n with
  | O => []
  | S k => be_bytes k (Z.shiftr x 8) ++ [Z.land x 255]
  end.

(** Message padding: [0x80], zeros up to 56 mod 64, the 64-bit bit length. *)
Definition pad (msg : list Z) : list Z :=
  let len := Z.of_nat (length msg) in
  let k := Z.to_nat ((55 - len) mod 64) in
  msg ++ [128] ++ repeat 0 k ++ be_bytes 8 (8 * len).

(** Big-endian 32-bit words of a byte list. *)
Fixpoint words (fuel : nat) (bs : list Z) : list Z :=
  match fuel with
  | O => []
  | S f =>
      match bs with
      | b0 :: b1 :: b2 :: b3 :: rest =>
          (b0 * 2^24 + b1 * 2^16 + b2 * 2^8 + b3) :: words f rest
      | _ => []
      end
  end.

(** The 64-entry message schedule, from the 16 words of a block. *)
Fixpoint schedule (n : nat) (w : list Z) : list Z :=
  match n with
  | O => w
  | S k =>
      let t := length w in
      let wt := add32 (add32 (sigma1 (nth (t - 2) w 0)) (nth (t - 7) w 0))
                      (add32 (sigma0 (nth (t - 15) w 0)) (nth (t - 16) w 0)) in
      schedule k (w ++ [wt])
  end.

(** One compression round on the working variables [a..h]. *)
Definition round (st : list Z) (kw : Z * Z) : list Z :=
  match st with
  | [a; b; c; d; e; f; g; h] =>
      let t1 := add32 (add32 (add32 h (Sigma1 e)) (add32 (Ch e f g) (fst kw))) (snd kw) in
      let t2 := add32 (Sigma0 a) (Maj a b c) in
      [add32 t1 t2; a; b; c; add32 d t1; e; f; g]
  | _ => st
  end.

Definition compress (hs : list Z) (block : list Z) : list Z :=
  let w := schedule 48 (words 16 block) in
  let st := fold_left round (combine K w) hs in
  map (fun p => add32 (fst p) (snd p)) (combine hs st).

Fixpoint blocks (fuel : nat) (bs : list Z) : list (list Z) :=
  match fuel with
  | O => []
  | S f =>
      match bs with
      | [] => []
      | _ => firstn 64 bs :: blocks f (skipn 64 bs)
      end
  end.

(** [sha256.Sum256]: the 32-byte digest. *)
Definition Sum256 (msg : list Z) : list Z :=
  let p := pad msg in
  let hs := fold_left compress (blocks (length p) p) H0 in
  flat_map (be_bytes 4) hs.

End SHA256.

Module Hex.
Open Scope Z_scope.

Definition hexdigits : string := "0123456789abcdef".

Definition hexDigit (n : Z) : ascii :=
  match String.get (Z.to_nat n) hexdigits with
  | Some c => c
  | None => "0"%char
  end.

(** [hex.EncodeToString]: two lowercase hex digits per byte. *)
Fixpoint EncodeToString (bs : list Z) : string :=
  match bs with
  | [] => EmptyString
  | b :: rest =>
      String (hexDigit (Z.shiftr b 4)) (String (hexDigit (Z.land b 15)) (EncodeToString rest))
  end.

End Hex.

(* ================================================================= *)
(** ** Kubernetes API types (the fields the controller touches) *)

Module K8s.
Open Scope Z_scope.

(** A [map[string]string] as an association list. *)
Definition Labels := list (string * string).

(** [metav1.Time] as seconds since Go's zero time; [IsZero] is [0]. *)
Definition Time := Z.

Record OwnerReference := mkOwnerReference {
  orAPIVersion : string; orKind : string; orName : string; orController : bool }.

Record ObjectMeta := mkObjectMeta {
  Name : string;
  Namespace : string;
  Labels_ : Labels;
  Finalizers : list string;
  DeletionTimestamp : option Time;
  OwnerReferences : list OwnerReference }.

Definition emptyMeta : ObjectMeta := mkObjectMeta "" "" [] [] None [].

(** [metav1.TypeMeta]. *)
Record TypeMeta := mkTypeMeta { Kind : string; APIVersion : string }.

(** [IsZero] on a [*metav1.Time]: a nil pointer or the zero time. *)
Definition IsZero (t : option Time) : bool :=
  match t with None => true | Some s => Z.eqb s 0 end.

(** [v1.PersistentVolumeAccessMode] and [v1.PersistentVolumeMode]. *)
Inductive PersistentVolumeAccessMode :=
  ReadWriteOnce | ReadOnlyMany | ReadWriteMany | ReadWriteOncePod.
Inductive PersistentVolumeMode := PersistentVolumeBlock | PersistentVolumeFilesystem.

Record PersistentVolumeClaimSpec := mkPVCSpec {
  AccessModes : list PersistentVolumeAccessMode;
  Selector : option Labels;
  Resources : Labels;               (* resource requests, e.g. storage *)
  VolumeName : string;
  StorageClassName : option string;
  VolumeMode : option PersistentVolumeMode;
  DataSource : option string }.

Record PersistentVolumeClaim := mkPVC { pvcMeta : ObjectMeta; pvcSpec : PersistentVolumeClaimSpec }.

(** [intstr.IntOrString]: the [Type] tag is [Int] (0) or [String] (1). *)
Inductive IntOrStringType := IntType | StringType.
Record IntOrString := mkIntOrString { ioType : IntOrStringType; IntVal : Z; StrVal : string }.

(** [intstr.FromInt]. *)
Definition FromInt (n : Z) : IntOrString := mkIntOrString IntType n "".

Inductive Protocol := ProtocolTCP | ProtocolUDP | ProtocolSCTP.

Record ServicePort := mkServicePort {
  spName : string; Port : Z; TargetPort : IntOrString; spProtocol : option Protocol }.

Record ServiceSpec := mkServiceSpec {
  svcSelector : Labels; Ports : list ServicePort; ClusterIP : string }.

Record Service := mkService { svcMeta : ObjectMeta; svcSpec : ServiceSpec }.

Record ObjectFieldSelector := mkObjectFieldSelector { FieldPath : string }.
Record EnvVarSource := mkEnvVarSource { FieldRef : option ObjectFieldSelector }.
Record EnvVar := mkEnvVar { evName : string; evValue : string; ValueFrom : option EnvVarSource }.

Record VolumeMount := mkVolumeMount { vmName : string; MountPath : string }.

Record SecurityContext := mkSecurityContext { Privileged : option bool; scRunAsUser : option Z }.

Record Container := mkContainer {
  cName : string;
  Image : string;
  Command : list string;
  Args : list string;
  VolumeMounts : list VolumeMount;
  Env : list EnvVar;
  cSecurityContext : option SecurityContext }.

(** [v1.Container{}]. *)
Definition emptyContainer : Container := mkContainer "" "" [] [] [] [] None.

Record PodSecurityContext := mkPodSecurityContext {
  RunAsUser : option Z; RunAsGroup : option Z; FSGroup : option Z }.

Record Volume := mkVolume { volName : string; ClaimName : option string }.

Inductive RestartPolicy := RestartPolicyAlways | RestartPolicyOnFailure | RestartPolicyNever.

Record PodSpec := mkPodSpec {
  InitContainers : list Container;
  Containers : list Container;
  podRestartPolicy : option RestartPolicy;
  podSecurityContext_ : option PodSecurityContext;
  Volumes : list Volume }.

Definition emptyPodSpec : PodSpec := mkPodSpec [] [] None None [].

Record PodTemplateSpec := mkPodTemplateSpec { ptMeta : ObjectMeta; ptSpec : PodSpec }.

Definition emptyPodTemplateSpec : PodTemplateSpec := mkPodTemplateSpec emptyMeta emptyPodSpec.

Inductive DeploymentStrategyType := RecreateDeploymentStrategyType | RollingUpdateDeploymentStrategyType.

Record RollingUpdateDeployment := mkRollingUpdateDeployment {
  MaxUnavailable : option IntOrString; MaxSurge : option IntOrString }.

Record DeploymentStrategy := mkDeploymentStrategy {
  stType : option DeploymentStrategyType; RollingUpdate : option RollingUpdateDeployment }.

Record DeploymentSpec := mkDeploymentSpec {
  depSelector : option Labels;      (* [MatchLabels] of the label selector *)
  Template : PodTemplateSpec;
  Replicas : option Z;
  Strategy : DeploymentStrategy }.

Definition emptyDeploymentSpec : DeploymentSpec :=
  mkDeploymentSpec None emptyPodTemplateSpec None (mkDeploymentStrategy None None).

Record Deployment := mkDeployment { depMeta : ObjectMeta; depSpec : DeploymentSpec }.

End K8s.

(* ================================================================= *)
(** ** [api/v1alpha1]: the ObjectStore resource *)

Module V1alpha1.
Import K8s.

Record GatewaySpec := mkGatewaySpec { gwPort : Z }.

Record ObjectStoreSpec := mkObjectStoreSpec {
  osImage : string;
  Gateway : GatewaySpec;
  VolumeClaimTemplate : option PersistentVolumeClaim }.  (* a pointer *)

Record ObjectStoreStatus := mkObjectStoreStatus { Phase : string }.

Record ObjectStore := mkObjectStore {
  osTypeMeta : TypeMeta;
  osMeta : ObjectMeta;
  osSpec : ObjectStoreSpec;
  osStatus : ObjectStoreStatus }.

(** [schema.GroupVersion] and its [String] method (apimachinery). *)
Record GroupVersion_ := mkGroupVersion { Group : string; Version : string }.

Definition gvString (gv : GroupVersion_) : string :=
  if String.eqb (Group gv) "" then Version gv else Group gv ++ "/" ++ Version gv.

(** Modelled from the spec: [v1alpha1.GroupVersion], declared in the
    package's [groupversion_info.go], which is not among the sources. The
    spec places the kind under group [object.<product>], version
    [v1alpha1]; the CRD of the repository names the group
    [object.rook-s3-nano]. *)
Definition GroupVersion : GroupVersion_ := mkGroupVersion "object.rook-s3-nano" "v1alpha1".

End V1alpha1.

(* ================================================================= *)
(** ** Go errors *)

Module GoErrors.

(** An [error] value: the API-server status errors the controller tests
    for, other failures, and [fmt.Errorf] values (wrapping with [%w], or
    not). A [Panic] stands for a run-time panic of the goroutine. *)
Inductive Err :=
| ErrNotFound (what : string)
| ErrAlreadyExists (what : string)
| ErrOther (msg : string)
| Errorf (msg : string)
| Wrapf (msg : string) (inner : Err)
| Panic (msg : string).

(** [kerrors.IsNotFound] / [kerrors.IsAlreadyExists] look through [%w]
    wrapping ([errors.As]). *)
Fixpoint IsNotFound (e : Err) : bool :=
  match e with
  | ErrNotFound _ => true
  | Wrapf _ i => IsNotFound i
  | _ => false
  end.

Fixpoint IsAlreadyExists (e : Err) : bool :=
  match e with
  | ErrAlreadyExists _ => true
  | Wrapf _ i => IsAlreadyExists i
  | _ => false
  end.

(** A Go [(T, error)] pair whose [T] is meaningless when the error is set. *)
Inductive result (A : Type) := Ok (a : A) | Error (e : Err).
Arguments Ok {A} a.
Arguments Error {A} e.

(** [%q] of a name without characters Go escapes. *)
Definition dq : ascii := Ascii.ascii_of_nat 34.
Definition Quote (s : string) : string := String dq (s ++ String dq EmptyString).

End GoErrors.

(* ================================================================= *)
(** ** [controllers/spec.go] and the builder half of the controller file *)

Module Controllers.
Import K8s V1alpha1 GoErrors.
Open Scope Z_scope.

Definition rgwBeastFrontendName : string := "beast".
Definition rgwPortInternalPort : Z := 7480.
Definition appName : string := "rgw".
Definition podNameEnvVar : string := "POD_NAME".
Definition objectStoreDataDirectory : string := "/var/lib/ceph/radosgw/data".

Definition cephGID : Z := 167.
Definition CephUID : Z := 167.

(** normalizeKey converts a key in any format to a key with underscores. *)
Definition normalizeKey (key : string) : string :=
  GoStrings.Replace (GoStrings.Replace key " " "_") "-" "_".

(** ContainerEnvVarReference: [fmt.Sprintf("$(%s)", envVarName)]. *)
Definition ContainerEnvVarReference (envVarName : string) : string :=
  "$(" ++ envVarName ++ ")".

Definition defaultDaemonFlag : list string :=
  [ "-d"; "--no-mon-config"; "--nolockdep " ].

Definition instanceName (name namespace : string) : string :=
  appName ++ "-" ++ name ++ "-" ++ namespace.

(** NewFlag returns the key-value pair in the format of a Ceph command
    line-compatible flag. *)
Definition NewFlag (key value : string) : string :=
  let n := normalizeKey key in
  let f := GoStrings.Replace n "_" "-" in
  "--" ++ f ++ "=" ++ value.

(** buildFinalizerName: [fmt.Sprintf("%s.%s", strings.ToLower(kind),
    v1alpha1.GroupVersion)]; [%s] on a [schema.GroupVersion] prints its
    [String()]. The Unicode path of [strings.ToLower] is a parameter. *)
Definition buildFinalizerName (unicodeToLower : string -> string) (kind : string) : string :=
  GoStrings.ToLower unicodeToLower kind ++ "." ++ gvString GroupVersion.

Definition fieldEnv (name path : string) : EnvVar :=
  mkEnvVar name "" (Some (mkEnvVarSource (Some (mkObjectFieldSelector path)))).

Definition DaemonEnvVars (image : string) : list EnvVar :=
  [ mkEnvVar "CONTAINER_IMAGE" image None;
    fieldEnv "POD_NAME" "metadata.name";
    fieldEnv "POD_NAMESPACE" "metadata.namespace";
    fieldEnv "NODE_NAME" "spec.nodeName";
    mkEnvVar "CEPH_LIB" "/usr/lib64/rados-classes" None ].

Definition DaemonVolumesDataPVC (pvcName : string) : Volume :=
  mkVolume "ceph-daemon-data" (Some pvcName).

Definition daemonVolumeMountPVC : VolumeMount :=
  mkVolumeMount "ceph-daemon-data" objectStoreDataDirectory.

(** hash: the first 16 bytes of the SHA-256 digest, hex encoded. *)
Definition hash (s : string) : string :=
  Hex.EncodeToString (firstn 16 (SHA256.Sum256 (GoStrings.bytesOf s))).

Definition getLabels (name namespace : string) (includeNewLabels : bool) : Labels :=
  [("object_store", name)].

Definition chownCephDataDirsInitContainer (containerImage : string)
    (volumeMounts : list VolumeMount) (securityContext : option SecurityContext) : Container :=
  let args := [ "--verbose"; "--recursive"; "ceph:ceph"; objectStoreDataDirectory ] in
  mkContainer "chown-container-data-dir" containerImage ["chown"] args volumeMounts [] securityContext.

Definition podSecurityContext : option SecurityContext :=
  Some (mkSecurityContext (Some true) (Some 0)).

Definition makeDaemonContainer (objectStore : ObjectStore) : Container :=
  mkContainer
    "rgw"
    (osImage (osSpec objectStore))
    ["radosgw-sqlite"]
    (defaultDaemonFlag ++
      [ NewFlag "id" (hash (ContainerEnvVarReference podNameEnvVar));
        NewFlag "host" (ContainerEnvVarReference podNameEnvVar);
        NewFlag "librados sqlite data dir" objectStoreDataDirectory;
        NewFlag "debug rgw" "15" ])
    [daemonVolumeMountPVC]
    (DaemonEnvVars (osImage (osSpec objectStore)))
    None.

(** [reflect.DeepEqual] on containers. *)
Definition Container_eq_dec (x y : Container) : {x = y} + {x <> y}.
Proof. repeat decide equality. Defined.

Definition makeRGWPodSpec (objectStore : ObjectStore) : result PodTemplateSpec :=
  let rgwDaemonContainer := makeDaemonContainer objectStore in
  if Container_eq_dec rgwDaemonContainer emptyContainer
  then Error (Errorf "got empty container for RGW daemon")
  else
    let name := Name (osMeta objectStore) in
    let ns := Namespace (osMeta objectStore) in
    let podSpec :=
      mkPodSpec
        [chownCephDataDirsInitContainer (osImage (osSpec objectStore))
           [daemonVolumeMountPVC] podSecurityContext]
        [rgwDaemonContainer]
        (Some RestartPolicyAlways)
        (Some (mkPodSecurityContext (Some CephUID) (Some cephGID) (Some CephUID)))
        [DaemonVolumesDataPVC (instanceName name ns)] in
    Ok (mkPodTemplateSpec
          (mkObjectMeta (instanceName name ns) "" (getLabels name ns true) [] None [])
          podSpec).

Definition generateService (objectStore : ObjectStore) : Service :=
  let name := Name (osMeta objectStore) in
  let ns := Namespace (osMeta objectStore) in
  mkService (mkObjectMeta (instanceName name ns) ns (getLabels name ns true) [] None [])
            (mkServiceSpec [] [] "").

(** addPort: append one TCP port unless a port value is zero. *)
Definition addPort (service : Service) (name : string) (port destPort : Z) : Service :=
  if (port =? 0) || (destPort =? 0) then service
  else
    let sp := svcSpec service in
    mkService (svcMeta service)
      (mkServiceSpec (svcSelector sp)
         (Ports sp ++ [mkServicePort name port (FromInt destPort) (Some ProtocolTCP)])
         (ClusterIP sp)).

(** The mutate closure of [reconcileService]: it replaces the whole spec,
    then adds the http port. *)
Definition serviceMutate (objectStore : ObjectStore) (service : Service) : result Service :=
  let service :=
    mkService (svcMeta service)
      (mkServiceSpec (getLabels (Name (osMeta objectStore)) (Namespace (osMeta objectStore)) false) [] "") in
  Ok (addPort service "http" 8080 rgwPortInternalPort).

(** The mutate closure of [createOrUpdateDeployment]. *)
Definition deploymentMutate (objectStore : ObjectStore) (deploy : Deployment) : result Deployment :=
  match makeRGWPodSpec objectStore with
  | Error e => Error e
  | Ok pod =>
      let replicas := 1 in
      let strategy :=
        mkDeploymentStrategy (Some RollingUpdateDeploymentStrategyType)
          (Some (mkRollingUpdateDeployment (Some (mkIntOrString IntType 1 ""))
                                           (Some (mkIntOrString IntType 0 "")))) in
      Ok (mkDeployment (depMeta deploy)
            (mkDeploymentSpec
               (Some (getLabels (Name (osMeta objectStore)) (Namespace (osMeta objectStore)) false))
               pod (Some replicas) strategy))
  end.

End Controllers.

(* ================================================================= *)
(** ** The reconciliation engine ([controllers/objectstore_controller.go])

    The cluster API store is abstract: its answers to get, create, update
    and delete are parameters of a section. Every call the controller
    issues is recorded, in order, in a trace next to the store state. *)

Module Engine.
Import K8s V1alpha1 GoErrors Controllers.
Open Scope Z_scope.

Record NamespacedName := mkNamespacedName { nnNamespace : string; nnName : string }.

(** The kinds of object the controller reads or writes, and their Go types. *)
Inductive ObjKind := KObjectStore | KPVC | KService | KDeployment.

Definition objType (k : ObjKind) : Type :=
  match k with
  | KObjectStore => ObjectStore
  | KPVC => PersistentVolumeClaim
  | KService => Service
  | KDeployment => Deployment
  end.

Definition metaOf (k : ObjKind) : objType k -> ObjectMeta :=
  match k with
  | KObjectStore => osMeta
  | KPVC => pvcMeta
  | KService => svcMeta
  | KDeployment => depMeta
  end.

(** [client.ObjectKeyFromObject]. *)
Definition keyOf (k : ObjKind) (o : objType k) : NamespacedName :=
  mkNamespacedName (Namespace (metaOf k o)) (Name (metaOf k o)).

Definition NamespacedName_eqb (a b : NamespacedName) : bool :=
  String.eqb (nnNamespace a) (nnNamespace b) && String.eqb (nnName a) (nnName b).

(** [equality.Semantic.DeepEqual] on the objects [CreateOrUpdate] compares. *)
Definition objEqDec (k : ObjKind) : forall x y : objType k, {x = y} + {x <> y}.
Proof. destruct k; simpl; repeat decide equality. Defined.

(** A store call issued by the controller. *)
Inductive Call :=
| CallGet (k : ObjKind) (key : NamespacedName)
| CallCreate (k : ObjKind) (o : objType k)
| CallUpdate (k : ObjKind) (o : objType k)
| CallDelete (k : ObjKind) (o : objType k).

(** Calls that change the store. *)
Definition isMutation (c : Call) : bool :=
  match c with CallGet _ _ => false | _ => true end.

(** [controllerutil.OperationResult]; [OperationResultNone] is [""]. *)
Inductive OperationResult :=
  OperationResultNone | OperationResultCreated | OperationResultUpdated | OperationResultUnchanged.

(** [ctrl.Result]. *)
Record Result := mkResult { Requeue : bool; RequeueAfter : Z }.
Definition emptyResult : Result := mkResult false 0.

Definition emptyObjectStore : ObjectStore :=
  mkObjectStore (mkTypeMeta "" "") emptyMeta
    (mkObjectStoreSpec "" (mkGatewaySpec 0) None) (mkObjectStoreStatus "").

(** [controllerutil.ContainsFinalizer], [AddFinalizer], [RemoveFinalizer]
    on the in-memory object. *)
Definition ContainsFinalizer (o : ObjectStore) (f : string) : bool :=
  existsb (String.eqb f) (Finalizers (osMeta o)).

Definition withFinalizers (o : ObjectStore) (fs : list string) : ObjectStore :=
  let m := osMeta o in
  mkObjectStore (osTypeMeta o)
    (mkObjectMeta (Name m) (Namespace m) (Labels_ m) fs (DeletionTimestamp m) (OwnerReferences m))
    (osSpec o) (osStatus o).

Definition AddFinalizer (o : ObjectStore) (f : string) : ObjectStore :=
  if ContainsFinalizer o f then o else withFinalizers o (Finalizers (osMeta o) ++ [f]).

Definition RemoveFinalizer (o : ObjectStore) (f : string) : ObjectStore :=
  withFinalizers o (filter (fun x => negb (String.eqb x f)) (Finalizers (osMeta o))).

Section Engine.

Variable St : Type.

(** The store's answers. *)
Variable storeGet : forall k : ObjKind, NamespacedName -> St -> result (objType k).
Variable storeCreate : forall k : ObjKind, objType k -> St -> result (objType k) * St.
Variable storeUpdate : forall k : ObjKind, objType k -> St -> result (objType k) * St.
Variable storeDelete : forall k : ObjKind, objType k -> St -> option Err * St.
(** [controllerutil.SetControllerReference] with the reconciler's scheme. *)
Variable setControllerReference : ObjectStore -> ObjectMeta -> result ObjectMeta.
(** The Unicode path of [strings.ToLower]. *)
Variable unicodeToLower : string -> string.

(** The controller's view of the world: the store and the calls so far. *)
Record World := mkWorld { store : St; trace : list Call }.

(** A step either finishes with a value or panics. *)
Inductive Outcome (A : Type) :=
| Done (a : A) (w : World)
| Panicked (msg : string) (w : World).
Arguments Done {A} a w.
Arguments Panicked {A} msg w.

Definition M (A : Type) : Type := World -> Outcome A.

Definition ret {A} (a : A) : M A := fun w => Done a w.
Definition bind {A B} (m : M A) (f : A -> M B) : M B :=
  fun w => match m w with Done a w' => f a w' | Panicked s w' => Panicked s w' end.
Definition panic {A} (msg : string) : M A := fun w => Panicked msg w.

Notation "x <- m ;; k" := (bind m (fun x => k)) (at level 61, m at next level, right associativity).

Definition Get (k : ObjKind) (key : NamespacedName) : M (result (objType k)) :=
  fun w => Done (storeGet k key (store w)) (mkWorld (store w) (trace w ++ [CallGet k key])).

Definition Create (k : ObjKind) (o : objType k) : M (result (objType k)) :=
  fun w => let '(r, s') := storeCreate k o (store w) in
           Done r (mkWorld s' (trace w ++ [CallCreate k o])).

Definition Update (k : ObjKind) (o : objType k) : M (result (objType k)) :=
  fun w => let '(r, s') := storeUpdate k o (store w) in
           Done r (mkWorld s' (trace w ++ [CallUpdate k o])).

Definition Delete (k : ObjKind) (o : objType k) : M (option Err) :=
  fun w => let '(r, s') := storeDelete k o (store w) in
           Done r (mkWorld s' (trace w ++ [CallDelete k o])).

(** [controllerutil.mutate]: run the closure, then refuse a changed key. *)
Definition mutate (k : ObjKind) (f : objType k -> result (objType k))
    (key : NamespacedName) (o : objType k) : result (objType k) :=
  match f o with
  | Error e => Error e
  | Ok o' =>
      if NamespacedName_eqb (keyOf k o') key then Ok o'
      else Error (Errorf "MutateFn cannot mutate object name and/or object namespace")
  end.

(** [controllerutil.CreateOrUpdate]; it also returns the object as left
    in the caller's variable. *)
Definition CreateOrUpdate (k : ObjKind) (obj : objType k)
    (f : objType k -> result (objType k)) : M (result (OperationResult * objType k)) :=
  let key := keyOf k obj in
  r <- Get k key ;;
  match r with
  | Error e =>
      if negb (IsNotFound e) then ret (Error e) else
      match mutate k f key obj with
      | Error e' => ret (Error e')
      | Ok obj' =>
          c <- Create k obj' ;;
          match c with
          | Error e'' => ret (Error e'')
          | Ok obj'' => ret (Ok (OperationResultCreated, obj''))
          end
      end
  | Ok existing =>
      match mutate k f key existing with
      | Error e' => ret (Error e')
      | Ok obj' =>
          if objEqDec k existing obj' then ret (Ok (OperationResultUnchanged, obj')) else
          u <- Update k obj' ;;
          match u with
          | Error e'' => ret (Error e'')
          | Ok obj'' => ret (Ok (OperationResultUpdated, obj''))
          end
      end
  end.

Definition opResultString (r : OperationResult) : string :=
  match r with
  | OperationResultNone => ""
  | OperationResultCreated => "created"
  | OperationResultUpdated => "updated"
  | OperationResultUnchanged => "unchanged"
  end.

(** The claim [createPVC] builds from the template (which must be set). *)
Definition buildPVC (objectStore : ObjectStore) (tmpl : PersistentVolumeClaim) : PersistentVolumeClaim :=
  let m := osMeta objectStore in
  let s := pvcSpec tmpl in
  mkPVC (mkObjectMeta (instanceName (Name m) (Namespace m)) (Namespace m) [] [] None [])
        (mkPVCSpec [ReadWriteOnce] (Selector s) (Resources s) (VolumeName s)
                   (StorageClassName s) (Some PersistentVolumeFilesystem) (DataSource s)).

(** createPVC will create a PVC for the given ObjectStore. A nil
    [VolumeClaimTemplate] is dereferenced, which panics. *)
Definition createPVC (objectStore : ObjectStore) : M (option Err) :=
  match VolumeClaimTemplate (osSpec objectStore) with
  | None => panic "invalid memory address or nil pointer dereference"
  | Some tmpl =>
      let pvc := buildPVC objectStore tmpl in
      r <- Create KPVC pvc ;;
      match r with
      | Ok _ => ret None
      | Error e =>
          if IsAlreadyExists e then ret None
          else ret (Some (Wrapf ("failed to create PVC " ++ Quote (Name (pvcMeta pvc)) ++ ": ") e))
      end
  end.

Definition reconcileService (objectStore : ObjectStore) : M (result string) :=
  let service := generateService objectStore in
  match setControllerReference objectStore (svcMeta service) with
  | Error e =>
      ret (Error (Wrapf ("failed to set owner reference to service " ++ Quote (Name (svcMeta service)) ++ ": ") e))
  | Ok m =>
      let service := mkService m (svcSpec service) in
      r <- CreateOrUpdate KService service (serviceMutate objectStore) ;;
      match r with
      | Error e =>
          ret (Error (Wrapf ("failed to create or update object store " ++ Quote (Name (osMeta objectStore))
                             ++ " service " ++ Quote (opResultString OperationResultNone) ++ ": ") e))
      | Ok (_, svc) => ret (Ok (ClusterIP (svcSpec svc)))
      end
  end.

Definition createOrUpdateDeployment (objectStore : ObjectStore) : M (result OperationResult) :=
  let m := osMeta objectStore in
  let deploy :=
    mkDeployment (mkObjectMeta (instanceName (Name m) (Namespace m)) (Namespace m)
                                (getLabels (Name m) (Namespace m) true) [] None [])
                 emptyDeploymentSpec in
  match setControllerReference objectStore (depMeta deploy) with
  | Error e =>
      ret (Error (Wrapf ("failed to set owner reference to deployment " ++ Quote (Name (depMeta deploy)) ++ ": ") e))
  | Ok dm =>
      let deploy := mkDeployment dm (depSpec deploy) in
      r <- CreateOrUpdate KDeployment deploy (deploymentMutate objectStore) ;;
      match r with
      | Error e => ret (Error e)
      | Ok (op, _) => ret (Ok op)
      end
  end.

(** Reconcile. Its value is the [(ctrl.Result, error)] pair, together with
    the controller's in-memory [objectStore] variable as it stands at the
    return (it is never written back to the store). *)
Definition Reconcile (req : NamespacedName) : M (Result * option Err * ObjectStore) :=
  r <- Get KObjectStore req ;;
  match r with
  | Error e =>
      if IsNotFound e then ret (emptyResult, None, emptyObjectStore)
      else ret (emptyResult, Some (Wrapf "failed to get ObjectStore: " e), emptyObjectStore)
  | Ok objectStore =>
      let finalizerName := buildFinalizerName unicodeToLower (Kind (osTypeMeta objectStore)) in
      if negb (IsZero (DeletionTimestamp (osMeta objectStore))) then
        (* cleanup placeholder: nothing is done before the finalizer goes *)
        let objectStore := RemoveFinalizer objectStore finalizerName in
        ret (emptyResult, None, objectStore)
      else
        let objectStore :=
          if negb (ContainsFinalizer objectStore finalizerName)
          then AddFinalizer objectStore finalizerName else objectStore in
        e1 <- createPVC objectStore ;;
        match e1 with
        | Some e => ret (emptyResult, Some (Wrapf "failed to create PVC: " e), objectStore)
        | None =>
            s <- reconcileService objectStore ;;
            match s with
            | Error e => ret (emptyResult, Some (Wrapf "failed to reconcile Service: " e), objectStore)
            | Ok _ =>
                d <- createOrUpdateDeployment objectStore ;;
                match d with
                | Error e =>
                    ret (emptyResult, Some (Wrapf "failed to create or update deployment: " e), objectStore)
                | Ok _ => ret (emptyResult, None, objectStore)
                end
            end
        end
  end.

End Engine.

Arguments Done {St A} a w.
Arguments Panicked {St A} msg w.
Arguments mkWorld {St} store trace.
Arguments store {St} w.
Arguments trace {St} w.

End Engine.

(* ================================================================= *)
(** ** [controllers/objectstore_bucket_controller.go] *)

Module BucketController.
Import GoErrors Engine.

(** [ImmediateRetryResult = ctrl.Result{Requeue: true}]. *)
Definition ImmediateRetryResult : Result := mkResult true 0.

Definition bucketProvisionerName : string := "s3.rook.io/bucket".

(** The empty [Provisioner] struct. *)
Inductive Provisioner := mkProvisioner.

(** The value of the bucket [Reconcile]: it returns, or it panics. *)
Inductive BucketOutcome :=
| BReturn (r : Result) (e : option Err)
| BPanic (msg : string).

Section Bucket.

(** The bucket library: [provisioner.NewProvisioner] gives a controller
    pointer (possibly nil) and an error; [RunWithContext] blocks until the
    context is done and then gives the run's error. Both are library
    code, kept abstract; the blocking itself is not modelled. *)
Variable RestConfig Controller : Type.
Variable NewProvisioner : RestConfig -> string -> Provisioner -> string -> option Controller * option Err.
Variable RunWithContext : Controller -> option Err.

Definition bucketReconcile (restConfig : RestConfig) : BucketOutcome :=
  let allNamespaces := "" in
  let p := mkProvisioner in
  let '(bucketController, _) := NewProvisioner restConfig bucketProvisionerName p allNamespaces in
  match bucketController with
  | None => BPanic "invalid memory address or nil pointer dereference"
  | Some bc =>
      match RunWithContext bc with
      | Some err => BReturn ImmediateRetryResult (Some (Wrapf "failed to run bucket controller: " err))
      | None => BReturn emptyResult None
      end
  end.

End Bucket.

(** [predicate.Funcs] of controller-runtime: one optional function per
    event kind; a nil function lets the event through. *)
Inductive EventKind := CreateEvent | UpdateEvent | DeleteEvent | GenericEvent.

Record Event := mkEvent { evKind : EventKind; evObject : V1alpha1.ObjectStore }.

Record Funcs := mkFuncs {
  CreateFunc : option (Event -> bool);
  UpdateFunc : option (Event -> bool);
  DeleteFunc : option (Event -> bool);
  GenericFunc : option (Event -> bool) }.

Definition callOrTrue (f : option (Event -> bool)) (e : Event) : bool :=
  match f with None => true | Some g => g e end.

(** The [Create], [Update], [Delete] and [Generic] methods of [Funcs]. *)
Definition admits (p : Funcs) (e : Event) : bool :=
  match evKind e with
  | CreateEvent => callOrTrue (CreateFunc p) e
  | UpdateEvent => callOrTrue (UpdateFunc p) e
  | DeleteEvent => callOrTrue (DeleteFunc p) e
  | GenericEvent => callOrTrue (GenericFunc p) e
  end.

(** predicateController: only [CreateFunc] is set. *)
Definition predicateController : Funcs :=
  mkFuncs (Some (fun _ => true)) None None None.

End BucketController.

(* ================================================================= *)
(** ** Properties *)

Module Properties.
Import K8s V1alpha1 GoErrors Controllers Engine.
Open Scope Z_scope.

(** The hex digest of [$(POD_NAME)], as given by any SHA-256 implementation. *)
Definition podNameRefDigestHex : string :=
  "3b5dd2b313abb4941d0de8ecdd7b2fb2c73002d47145669a6c4cf8a047adc82f".

(** The id flag's hash: the first 32 hex digits of that digest. *)
Definition podNameRefHash : string := substring 0 32 podNameRefDigestHex.

(** The three separators a Ceph option key may be spelled with, and the
    flag spelling of a key: each separator becomes a hyphen. *)
Definition isSep (c : ascii) : bool :=
  Ascii.eqb c " " || Ascii.eqb c "-" || Ascii.eqb c "_".

Fixpoint dashify (s : string) : string :=
  match s with
  | EmptyString => EmptyString
  | String c s' => String (if isSep c then "-"%char else c) (dashify s')
  end.

(** The one TCP entry the service step writes. *)
Definition httpPort : ServicePort := mkServicePort "http" 8080 (FromInt 7480) (Some ProtocolTCP).

(* ----------------------------------------------------------------- *)
(** *** C1: the storage claim *)

(** C1. For every ObjectStore carrying a storage-claim template, createPVC
    issues exactly one store call, a create of the claim built from the
    template; that claim has access modes [ReadWriteOnce] only and volume
    mode [Filesystem], and every other field of the template's spec
    (selector, resources, volume name, storage class, data source) is
    passed through unchanged. *)
Theorem createPVC_forces_access_and_volume_mode :
  forall (St : Type) storeCreate (os : ObjectStore) (tmpl : PersistentVolumeClaim) (w : World St),
    VolumeClaimTemplate (osSpec os) = Some tmpl ->
    exists r w',
      createPVC St storeCreate os w = Done r w' /\
      trace w' = (trace w ++ [CallCreate KPVC (buildPVC os tmpl)])%list /\
      AccessModes (pvcSpec (buildPVC os tmpl)) = [ReadWriteOnce] /\
      VolumeMode (pvcSpec (buildPVC os tmpl)) = Some PersistentVolumeFilesystem /\
      Selector (pvcSpec (buildPVC os tmpl)) = Selector (pvcSpec tmpl) /\
      Resources (pvcSpec (buildPVC os tmpl)) = Resources (pvcSpec tmpl) /\
      VolumeName (pvcSpec (buildPVC os tmpl)) = VolumeName (pvcSpec tmpl) /\
      StorageClassName (pvcSpec (buildPVC os tmpl)) = StorageClassName (pvcSpec tmpl) /\
      DataSource (pvcSpec (buildPVC os tmpl)) = DataSource (pvcSpec tmpl).
Proof.
  intros St storeCreate os tmpl w Htmpl.
  unfold createPVC, bind, Create. rewrite Htmpl.
  destruct (storeCreate KPVC (buildPVC os tmpl) (store w)) as [r s'] eqn:Hc.
  destruct r as [p | e].
  - eexists; eexists; repeat split; reflexivity.
  - destruct (IsAlreadyExists e); eexists; eexists; repeat split; reflexivity.
Qed.

(** A template that asks for a block volume shared read-many. *)
Definition blockTemplate : PersistentVolumeClaim :=
  mkPVC emptyMeta
    (mkPVCSpec [ReadWriteMany; ReadOnlyMany] None [("storage", "10Gi")] "" (Some "fast")
               (Some PersistentVolumeBlock) None).

Definition storeWithTemplate : ObjectStore :=
  mkObjectStore (mkTypeMeta "ObjectStore" "object.rook-s3-nano/v1alpha1")
    (mkObjectMeta "store" "ns" [] [] None [])
    (mkObjectStoreSpec "quay.io/ceph/ceph" (mkGatewaySpec 0) (Some blockTemplate))
    (mkObjectStoreStatus "").

Definition echoCreate : forall k : ObjKind, objType k -> unit -> result (objType k) * unit :=
  fun k o s => (Ok o, s).

Lemma createPVC_forces_access_and_volume_mode_witness :
  VolumeClaimTemplate (osSpec storeWithTemplate) = Some blockTemplate /\
  exists r w',
    createPVC unit echoCreate storeWithTemplate (mkWorld tt []) = Done r w' /\
    trace w' = ([] ++ [CallCreate KPVC (buildPVC storeWithTemplate blockTemplate)])%list /\
    AccessModes (pvcSpec (buildPVC storeWithTemplate blockTemplate)) = [ReadWriteOnce] /\
    VolumeMode (pvcSpec (buildPVC storeWithTemplate blockTemplate)) = Some PersistentVolumeFilesystem /\
    Selector (pvcSpec (buildPVC storeWithTemplate blockTemplate)) = Selector (pvcSpec blockTemplate) /\
    Resources (pvcSpec (buildPVC storeWithTemplate blockTemplate)) = Resources (pvcSpec blockTemplate) /\
    VolumeName (pvcSpec (buildPVC storeWithTemplate blockTemplate)) = VolumeName (pvcSpec blockTemplate) /\
    StorageClassName (pvcSpec (buildPVC storeWithTemplate blockTemplate)) = StorageClassName (pvcSpec blockTemplate) /\
    DataSource (pvcSpec (buildPVC storeWithTemplate blockTemplate)) = DataSource (pvcSpec blockTemplate).
Proof.
  split; [reflexivity |].
  apply (createPVC_forces_access_and_volume_mode unit echoCreate storeWithTemplate blockTemplate
           (mkWorld tt [])).
  reflexivity.
Defined.

(* ----------------------------------------------------------------- *)
(** *** C2: the hash behind the id flag *)

(** C2. [hash] of the literal, unexpanded reference [$(POD_NAME)] is the
    32-character lowercase hex encoding of the first 16 bytes of the
    SHA-256 digest of those bytes ([3b5dd2b3...]); the reference the
    daemon container passes to [hash] is exactly that string, and the
    container's fourth argument, the id flag, is [--id=] followed by this
    constant for every ObjectStore. *)
Theorem hash_of_pod_name_reference :
  ContainerEnvVarReference podNameEnvVar = "$(POD_NAME)" /\
  Hex.EncodeToString (SHA256.Sum256 (GoStrings.bytesOf "$(POD_NAME)")) = podNameRefDigestHex /\
  hash "$(POD_NAME)" = Hex.EncodeToString (firstn 16 (SHA256.Sum256 (GoStrings.bytesOf "$(POD_NAME)"))) /\
  hash "$(POD_NAME)" = podNameRefHash /\
  String.length (hash "$(POD_NAME)") = 32%nat /\
  forall os : ObjectStore,
    nth_error (Args (makeDaemonContainer os)) 3 = Some ("--id=" ++ podNameRefHash).
Proof.
  split; [reflexivity |].
  split; [vm_compute; reflexivity |].
  split; [reflexivity |].
  split; [vm_compute; reflexivity |].
  split; [vm_compute; reflexivity |].
  intros os. vm_compute. reflexivity.
Qed.

(* ----------------------------------------------------------------- *)
(** *** C3: a failed fetch *)

(** C3. When the store's answer to fetching the requested ObjectStore is
    an error, Reconcile issues that one get and no other store call, and
    leaves the store untouched: on not-found it returns the empty
    [ctrl.Result] (no requeue) with a nil error; on any other error it
    returns the empty [ctrl.Result] with the error wrapped as
    [failed to get ObjectStore: %w]. *)
Theorem reconcile_fetch_error_no_mutation :
  forall (St : Type) storeGet storeCreate storeUpdate scr utl
         (req : NamespacedName) (w : World St) (e : Err),
    storeGet KObjectStore req (store w) = Error e ->
    Reconcile St storeGet storeCreate storeUpdate scr utl req w =
      Done (emptyResult,
            (if IsNotFound e then None else Some (Wrapf "failed to get ObjectStore: " e)),
            emptyObjectStore)
           (mkWorld (store w) (trace w ++ [CallGet KObjectStore req])%list) /\
    forallb (fun c => negb (isMutation c)) [CallGet KObjectStore req] = true.
Proof.
  intros St storeGet storeCreate storeUpdate scr utl req w e Hget.
  split; [| reflexivity].
  unfold Reconcile, bind, Get. rewrite Hget.
  destruct (IsNotFound e); reflexivity.
Qed.

Definition reqStore : NamespacedName := mkNamespacedName "ns" "store".

Definition getFails (e : Err) : forall k : ObjKind, NamespacedName -> unit -> result (objType k) :=
  fun k _ _ => Error e.

Definition noSetOwner : ObjectStore -> ObjectMeta -> result ObjectMeta := fun _ m => Ok m.

Lemma reconcile_fetch_error_no_mutation_witness :
  getFails (ErrNotFound "store") KObjectStore reqStore tt = Error (ErrNotFound "store") /\
  Reconcile unit (getFails (ErrNotFound "store")) echoCreate echoCreate noSetOwner (fun s => s)
            reqStore (mkWorld tt []) =
    Done (emptyResult, None, emptyObjectStore) (mkWorld tt [CallGet KObjectStore reqStore]) /\
  Reconcile unit (getFails (ErrOther "timeout")) echoCreate echoCreate noSetOwner (fun s => s)
            reqStore (mkWorld tt []) =
    Done (emptyResult, Some (Wrapf "failed to get ObjectStore: " (ErrOther "timeout")), emptyObjectStore)
         (mkWorld tt [CallGet KObjectStore reqStore]).
Proof.
  split; [reflexivity |].
  split.
  - exact (proj1 (reconcile_fetch_error_no_mutation unit (getFails (ErrNotFound "store")) echoCreate
                    echoCreate noSetOwner (fun s => s) reqStore (mkWorld tt []) (ErrNotFound "store")
                    eq_refl)).
  - exact (proj1 (reconcile_fetch_error_no_mutation unit (getFails (ErrOther "timeout")) echoCreate
                    echoCreate noSetOwner (fun s => s) reqStore (mkWorld tt []) (ErrOther "timeout")
                    eq_refl)).
Defined.

(* ----------------------------------------------------------------- *)
(** *** C4: the deletion branch *)

Lemma RemoveFinalizer_absent (o : ObjectStore) (f : string) :
  ~ In f (Finalizers (osMeta (RemoveFinalizer o f))).
Proof.
  unfold RemoveFinalizer, withFinalizers; simpl.
  rewrite filter_In. intros [_ H].
  rewrite String.eqb_refl in H. discriminate.
Qed.

(** C4. When the fetched ObjectStore has a (non-zero) deletion timestamp,
    Reconcile returns the empty [ctrl.Result] (no requeue) with a nil
    error; its copy of the object no longer lists the finalizer token;
    the only store call it issued is the get, so no delete call and no
    other store mutation happens. *)
Theorem reconcile_deleting_removes_finalizer_only :
  forall (St : Type) (storeGet : forall k : ObjKind, NamespacedName -> St -> result (objType k))
         storeCreate storeUpdate scr utl
         (req : NamespacedName) (w : World St) (os : ObjectStore),
    storeGet KObjectStore req (store w) = Ok os ->
    IsZero (DeletionTimestamp (osMeta os)) = false ->
    exists os',
      Reconcile St storeGet storeCreate storeUpdate scr utl req w =
        Done (emptyResult, None, os') (mkWorld (store w) (trace w ++ [CallGet KObjectStore req])%list) /\
      ~ In (buildFinalizerName utl (Kind (osTypeMeta os))) (Finalizers (osMeta os')) /\
      osSpec os' = osSpec os /\ Name (osMeta os') = Name (osMeta os) /\
      forallb (fun c => negb (isMutation c)) [CallGet KObjectStore req] = true.
Proof.
  intros St storeGet storeCreate storeUpdate scr utl req w os Hget Hdel.
  exists (RemoveFinalizer os (buildFinalizerName utl (Kind (osTypeMeta os)))).
  split.
  - unfold Reconcile, bind, Get. rewrite Hget. simpl. rewrite Hdel. reflexivity.
  - split; [apply RemoveFinalizer_absent |]. repeat split.
Qed.

Definition deletingStore : ObjectStore :=
  mkObjectStore (mkTypeMeta "ObjectStore" "object.rook-s3-nano/v1alpha1")
    (mkObjectMeta "store" "ns" [] ["objectstore.object.rook-s3-nano/v1alpha1"] (Some 1700000000) [])
    (mkObjectStoreSpec "quay.io/ceph/ceph" (mkGatewaySpec 0) (Some blockTemplate))
    (mkObjectStoreStatus "").

Definition getReturns (os : ObjectStore) : forall k : ObjKind, NamespacedName -> unit -> result (objType k) :=
  fun k => match k with
           | KObjectStore => fun _ _ => Ok os
           | _ => fun _ _ => Error (ErrNotFound "")
           end.

Lemma reconcile_deleting_removes_finalizer_only_witness :
  IsZero (DeletionTimestamp (osMeta deletingStore)) = false /\
  exists os',
    Reconcile unit (getReturns deletingStore) echoCreate echoCreate noSetOwner (fun s => s)
              reqStore (mkWorld tt []) =
      Done (emptyResult, None, os') (mkWorld tt ([] ++ [CallGet KObjectStore reqStore])%list) /\
    ~ In (buildFinalizerName (fun s => s) (Kind (osTypeMeta deletingStore))) (Finalizers (osMeta os')) /\
    osSpec os' = osSpec deletingStore /\ Name (osMeta os') = Name (osMeta deletingStore) /\
    forallb (fun c => negb (isMutation c)) [CallGet KObjectStore reqStore] = true.
Proof.
  split; [reflexivity |].
  apply (reconcile_deleting_removes_finalizer_only unit (getReturns deletingStore) echoCreate echoCreate
           noSetOwner (fun s => s) reqStore (mkWorld tt []) deletingStore); reflexivity.
Defined.

(* ----------------------------------------------------------------- *)
(** *** C5: the finalizer token *)

(** C5 (as stated, refuted). The token is not [<lowercased-kind>.<api-group>]:
    for the kind [ObjectStore] it is not
    [objectstore.object.rook-s3-nano]. *)
Lemma buildFinalizerName_not_kind_dot_group :
  ~ (forall (utl : string -> string) (kind : string),
        buildFinalizerName utl kind = GoStrings.ToLower utl kind ++ "." ++ Group GroupVersion).
Proof.
  intros H. specialize (H (fun s => s) "ObjectStore").
  vm_compute in H. discriminate H.
Qed.

(** C5 (amended). For every kind, the token is the lowercased kind, a dot,
    and the group-version string [<api-group>/<version>]; for the kind
    [ObjectStore] it is [objectstore.object.rook-s3-nano/v1alpha1]. *)
Theorem buildFinalizerName_kind_dot_group_version :
  (forall (utl : string -> string) (kind : string),
      buildFinalizerName utl kind =
        GoStrings.ToLower utl kind ++ "." ++ Group GroupVersion ++ "/" ++ Version GroupVersion) /\
  (forall utl : string -> string,
      buildFinalizerName utl "ObjectStore" = "objectstore.object.rook-s3-nano/v1alpha1").
Proof.
  split; intros; reflexivity.
Qed.

(* ----------------------------------------------------------------- *)
(** *** C6: flag spelling *)

Lemma normalize_then_dash (k : string) :
  GoStrings.Replace (normalizeKey k) "_" "-" = dashify k.
Proof.
  unfold normalizeKey.
  induction k as [| c k IH]; [reflexivity |].
  simpl. unfold isSep.
  destruct (Ascii.eqb c " ") eqn:E1.
  - apply Ascii.eqb_eq in E1; subst. simpl. now rewrite IH.
  - simpl. destruct (Ascii.eqb c "-") eqn:E2.
    + apply Ascii.eqb_eq in E2; subst. simpl. now rewrite IH.
    + simpl. destruct (Ascii.eqb c "_") eqn:E3; simpl; now rewrite IH.
Qed.

Lemma NewFlag_dashify (k v : string) : NewFlag k v = "--" ++ dashify k ++ "=" ++ v.
Proof. unfold NewFlag. now rewrite normalize_then_dash. Qed.

Lemma dashify_app (a b : string) : dashify (a ++ b) = dashify a ++ dashify b.
Proof. induction a as [| c a IH]; simpl; [reflexivity | now rewrite IH]. Qed.

Lemma dashify_concat (sep : string) (ws : list string) :
  dashify sep = "-" -> dashify (String.concat sep ws) = String.concat "-" (map dashify ws).
Proof.
  intros Hsep. induction ws as [| w ws IH]; [reflexivity |].
  destruct ws as [| w' ws'].
  - reflexivity.
  - change (dashify (w ++ sep ++ String.concat sep (w' :: ws')) =
            dashify w ++ "-" ++ String.concat "-" (map dashify (w' :: ws'))).
    rewrite dashify_app, dashify_app, Hsep, IH. reflexivity.
Qed.

(** C6. For every logical key, given as its list of words, and every
    value, NewFlag gives the same flag whether the words are joined by
    spaces, hyphens or underscores; and [NewFlag "debug rgw" "15"] is
    [--debug-rgw=15], while [some-config-key] and [some_config_key] both
    give [--some-config-key=x]. *)
Theorem NewFlag_separator_spellings_agree :
  (forall (ws : list string) (v : string),
      NewFlag (String.concat " " ws) v = NewFlag (String.concat "-" ws) v /\
      NewFlag (String.concat "_" ws) v = NewFlag (String.concat "-" ws) v) /\
  NewFlag "debug rgw" "15" = "--debug-rgw=15" /\
  NewFlag "some-config-key" "x" = "--some-config-key=x" /\
  NewFlag "some_config_key" "x" = "--some-config-key=x".
Proof.
  split; [| repeat split].
  intros ws v. rewrite !NewFlag_dashify.
  rewrite !(dashify_concat " "), !(dashify_concat "-"), !(dashify_concat "_") by reflexivity.
  split; reflexivity.
Qed.

(* ----------------------------------------------------------------- *)
(** *** C7: the daemon's command line *)

(** C7 (evaluation of the code). For every ObjectStore the daemon
    container runs [radosgw-sqlite] with exactly these arguments, in this
    order; the third is ["--nolockdep "], with a trailing space, not
    [--nolockdep]. *)
Theorem makeDaemonContainer_command_line :
  forall os : ObjectStore,
    Command (makeDaemonContainer os) = ["radosgw-sqlite"] /\
    Args (makeDaemonContainer os) =
      [ "-d"; "--no-mon-config"; "--nolockdep ";
        "--id=" ++ podNameRefHash; "--host=$(POD_NAME)";
        "--librados-sqlite-data-dir=/var/lib/ceph/radosgw/data"; "--debug-rgw=15" ] /\
    nth_error (Args (makeDaemonContainer os)) 2 <> Some "--nolockdep".
Proof.
  intros os. split; [reflexivity |]. split.
  - vm_compute. reflexivity.
  - vm_compute. discriminate.
Qed.

(* ----------------------------------------------------------------- *)
(** *** C8: the service port *)

Definition expectedService : Service :=
  mkService (mkObjectMeta "rgw-store-ns" "ns" [("object_store", "store")] [] None [])
            (mkServiceSpec [("object_store", "store")] [httpPort] "").

(** C8 (as stated, refuted). For an ObjectStore whose gateway port is
    zero, and a store that does not hold its service yet, the service
    step creates a service with a port entry, 8080 to 7480. *)
Lemma reconcileService_port_zero_still_exposed :
  gwPort (Gateway (osSpec storeWithTemplate)) = 0 /\
  exists (w' : World unit) (ip : string) (svc : Service),
    reconcileService unit (getReturns storeWithTemplate) echoCreate echoCreate noSetOwner
                     storeWithTemplate (mkWorld tt []) = Done (Ok ip) w' /\
    In (CallCreate KService svc) (trace w') /\
    Ports (svcSpec svc) = [httpPort] /\ Ports (svcSpec svc) <> [].
Proof.
  split; [reflexivity |].
  exists (mkWorld tt [CallGet KService (mkNamespacedName "ns" "rgw-store-ns");
                      CallCreate KService expectedService]).
  exists "", expectedService.
  split; [reflexivity |].
  split; [simpl; right; left; reflexivity |].
  split; [reflexivity | discriminate].
Qed.

(** C8 (amended). [addPort] appends one TCP entry, mapping the external
    to the internal port, when both are non-zero, and nothing otherwise;
    the service step's mutation resets the spec and calls it with the
    constants 8080 and 7480, so for every ObjectStore (whatever its
    gateway port) the target service has exactly the one entry 8080 to
    7480. *)
Theorem service_port_entry_constant :
  (forall (svc : Service) (name : string) (p d : Z),
      Ports (svcSpec (addPort svc name p d)) =
        if (p =? 0) || (d =? 0) then Ports (svcSpec svc)
        else (Ports (svcSpec svc) ++ [mkServicePort name p (FromInt d) (Some ProtocolTCP)])%list) /\
  (forall (os : ObjectStore) (svc : Service),
      exists svc', serviceMutate os svc = Ok svc' /\ Ports (svcSpec svc') = [httpPort]).
Proof.
  split.
  - intros svc name p d. unfold addPort.
    destruct ((p =? 0) || (d =? 0)); reflexivity.
  - intros os svc. eexists. split; reflexivity.
Qed.

(* ----------------------------------------------------------------- *)
(** *** C9 and C10: the mutation closures and the pod template *)

Lemma makeDaemonContainer_not_empty (os : ObjectStore) : makeDaemonContainer os <> emptyContainer.
Proof. unfold makeDaemonContainer, emptyContainer. intros H. injection H. discriminate. Qed.

Lemma makeRGWPodSpec_ok (os : ObjectStore) :
  exists p, makeRGWPodSpec os = Ok p.
Proof.
  unfold makeRGWPodSpec.
  destruct (Container_eq_dec (makeDaemonContainer os) emptyContainer) as [H | H].
  - exfalso. exact (makeDaemonContainer_not_empty os H).
  - eexists. reflexivity.
Qed.

(** C9. The mutation closures of the service and deployment steps always
    succeed and are idempotent: applied again to the object they produced
    they return it unchanged; in particular the service keeps the single
    port entry and ports do not accumulate. *)
Theorem mutations_idempotent :
  (forall (os : ObjectStore) (svc : Service),
      exists svc1, serviceMutate os svc = Ok svc1 /\ serviceMutate os svc1 = Ok svc1 /\
                   Ports (svcSpec svc1) = [httpPort]) /\
  (forall (os : ObjectStore) (d : Deployment),
      exists d1, deploymentMutate os d = Ok d1 /\ deploymentMutate os d1 = Ok d1).
Proof.
  split.
  - intros os svc. eexists. split; [reflexivity |]. split; reflexivity.
  - intros os d. destruct (makeRGWPodSpec_ok os) as [p Hp].
    unfold deploymentMutate. rewrite Hp.
    eexists. split; reflexivity.
Qed.

(** C10. For every ObjectStore, even one with an empty image, the daemon
    container is named [rgw], so it differs from the empty container, the
    "got empty container for RGW daemon" branch is never taken, and
    building the pod template succeeds. *)
Theorem makeRGWPodSpec_never_empty_container :
  forall os : ObjectStore,
    cName (makeDaemonContainer os) = "rgw" /\
    makeDaemonContainer os <> emptyContainer /\
    exists p, makeRGWPodSpec os = Ok p.
Proof.
  intros os. split; [reflexivity |].
  split; [apply makeDaemonContainer_not_empty | apply makeRGWPodSpec_ok].
Qed.

End Properties.

(* ================================================================= *)
(** ** Further properties of the builder and the engine *)

Module Extras.
Import K8s V1alpha1 GoErrors Controllers Engine Properties.
Open Scope Z_scope.

(* ----------------------------------------------------------------- *)
(** *** The hash *)

(** A lowercase hex digit. *)
Definition isHexChar (c : ascii) : bool :=
  existsb (Ascii.eqb c) (list_ascii_of_string Hex.hexdigits).

Fixpoint allHex (s : string) : bool :=
  match s with
  | EmptyString => true
  | String c s' => isHexChar c && allHex s'
  end.

Lemma be_bytes_length (n : nat) (x : Z) : length (SHA256.be_bytes n x) = n.
Proof.
  revert x. induction n as [| n IH]; intros x; [reflexivity |].
  simpl. rewrite length_app, IH. simpl. lia.
Qed.

Lemma round_length (st : list Z) (kw : Z * Z) : length (SHA256.round st kw) = length st.
Proof.
  destruct st as [| a [| b [| c [| d [| e [| f [| g [| h [| i st]]]]]]]]]; reflexivity.
Qed.

Lemma fold_round_length (l : list (Z * Z)) (st : list Z) :
  length (fold_left SHA256.round l st) = length st.
Proof.
  revert st. induction l as [| kw l IH]; intros st; [reflexivity |].
  simpl. rewrite IH. apply round_length.
Qed.

Lemma compress_length (hs block : list Z) : length (SHA256.compress hs block) = length hs.
Proof.
  unfold SHA256.compress. rewrite length_map, length_combine, fold_round_length. lia.
Qed.

Lemma fold_compress_length (bs : list (list Z)) (hs : list Z) :
  length (fold_left SHA256.compress bs hs) = length hs.
Proof.
  revert hs. induction bs as [| b bs IH]; intros hs; [reflexivity |].
  simpl. rewrite IH. apply compress_length.
Qed.

Lemma flat_map_be4_length (hs : list Z) :
  length (flat_map (SHA256.be_bytes 4) hs) = (4 * length hs)%nat.
Proof.
  induction hs as [| h hs IH]; [reflexivity |].
  change (length (SHA256.be_bytes 4 h ++ flat_map (SHA256.be_bytes 4) hs) = (4 * S (length hs))%nat).
  rewrite length_app, be_bytes_length, IH. lia.
Qed.

Lemma Sum256_length (msg : list Z) : length (SHA256.Sum256 msg) = 32%nat.
Proof.
  unfold SHA256.Sum256. rewrite flat_map_be4_length, fold_compress_length. reflexivity.
Qed.

Lemma hexDigit_hex (n : Z) : isHexChar (Hex.hexDigit n) = true.
Proof.
  unfold Hex.hexDigit.
  assert (H : forall i, match String.get i Hex.hexdigits with
                        | Some c => isHexChar c = true | None => True end).
  { intros i. do 16 (destruct i as [| i]; [reflexivity |]). exact I. }
  specialize (H (Z.to_nat n)).
  destruct (String.get (Z.to_nat n) Hex.hexdigits); [exact H | reflexivity].
Qed.

Lemma EncodeToString_shape (bs : list Z) :
  String.length (Hex.EncodeToString bs) = (2 * length bs)%nat /\
  allHex (Hex.EncodeToString bs) = true.
Proof.
  induction bs as [| b bs [IHl IHh]]; [split; reflexivity |].
  simpl. rewrite !hexDigit_hex, IHh. split; [lia | reflexivity].
Qed.

(** The id hash of any string, not only [$(POD_NAME)], is 32 characters
    long and made of lowercase hex digits only: the first 16 digest bytes
    give a short name whatever the length of the input. *)
Theorem hash_length_and_alphabet :
  forall s : string, String.length (hash s) = 32%nat /\ allHex (hash s) = true.
Proof.
  intros s. unfold hash.
  destruct (EncodeToString_shape (firstn 16 (SHA256.Sum256 (GoStrings.bytesOf s)))) as [Hl Hh].
  split; [| exact Hh].
  rewrite Hl, length_firstn, Sum256_length. reflexivity.
Qed.

(* ----------------------------------------------------------------- *)
(** *** Key normalization and flags *)

(** The byte-wise effect of [normalizeKey]: spaces and hyphens become
    underscores. *)
Definition underscore (c : ascii) : ascii :=
  if Ascii.eqb c " " || Ascii.eqb c "-" then "_"%char else c.

Fixpoint underscorify (s : string) : string :=
  match s with
  | EmptyString => EmptyString
  | String c s' => String (underscore c) (underscorify s')
  end.

Fixpoint noByte (c : ascii) (s : string) : bool :=
  match s with
  | EmptyString => true
  | String d s' => negb (Ascii.eqb d c) && noByte c s'
  end.

Lemma normalizeKey_underscorify (k : string) : normalizeKey k = underscorify k.
Proof.
  unfold normalizeKey.
  induction k as [| c k IH]; [reflexivity |].
  simpl. unfold underscore.
  destruct (Ascii.eqb c " ") eqn:E1.
  - apply Ascii.eqb_eq in E1; subst. simpl. now rewrite IH.
  - simpl. destruct (Ascii.eqb c "-") eqn:E2; simpl; now rewrite IH.
Qed.

Lemma underscore_idem (c : ascii) : underscore (underscore c) = underscore c.
Proof.
  unfold underscore.
  destruct (Ascii.eqb c " " || Ascii.eqb c "-") eqn:E; [reflexivity |].
  rewrite E. reflexivity.
Qed.

Lemma underscore_not_sep (c : ascii) :
  Ascii.eqb (underscore c) " " = false /\ Ascii.eqb (underscore c) "-" = false.
Proof.
  unfold underscore.
  destruct (Ascii.eqb c " ") eqn:E1; [split; reflexivity |].
  destruct (Ascii.eqb c "-") eqn:E2; [split; reflexivity |].
  simpl. split; assumption.
Qed.

(** [normalizeKey] keeps the length of the key, leaves no space and no
    hyphen in it, and normalizing twice is normalizing once. *)
Theorem normalizeKey_idempotent_no_separators :
  forall k : string,
    normalizeKey (normalizeKey k) = normalizeKey k /\
    String.length (normalizeKey k) = String.length k /\
    noByte " " (normalizeKey k) = true /\ noByte "-" (normalizeKey k) = true.
Proof.
  intros k. rewrite !normalizeKey_underscorify.
  induction k as [| c k [IH1 [IH2 [IH3 IH4]]]]; [repeat split |].
  simpl. rewrite IH1, underscore_idem, IH2, IH3, IH4.
  destruct (underscore_not_sep c) as [Hs Hd]. rewrite Hs, Hd.
  repeat split.
Qed.

Lemma dashify_length (k : string) : String.length (dashify k) = String.length k.
Proof. induction k as [| c k IH]; simpl; [reflexivity | now rewrite IH]. Qed.

Lemma dashify_no_space_underscore (k : string) :
  noByte " " (dashify k) = true /\ noByte "_" (dashify k) = true.
Proof.
  induction k as [| c k [IH1 IH2]]; [split; reflexivity |].
  simpl. rewrite IH1, IH2. unfold isSep.
  destruct (Ascii.eqb c " ") eqn:E1; [split; reflexivity |].
  destruct (Ascii.eqb c "-") eqn:E2; [split; reflexivity |].
  destruct (Ascii.eqb c "_") eqn:E3; [split; reflexivity |].
  simpl. rewrite E1, E3. split; reflexivity.
Qed.

(** Every flag NewFlag builds is [--], a flag name as long as the key with
    no space and no underscore in it, [=], then the value unchanged. *)
Theorem NewFlag_shape :
  forall key value : string,
    exists f, NewFlag key value = "--" ++ f ++ "=" ++ value /\
              String.length f = String.length key /\
              noByte " " f = true /\ noByte "_" f = true.
Proof.
  intros key value. exists (dashify key).
  split; [apply NewFlag_dashify |].
  split; [apply dashify_length | apply dashify_no_space_underscore].
Qed.

(* ----------------------------------------------------------------- *)
(** *** Resource names *)

Lemma list_ascii_of_string_app (a b : string) :
  list_ascii_of_string (a ++ b) = (list_ascii_of_string a ++ list_ascii_of_string b)%list.
Proof. induction a as [| c a IH]; simpl; [reflexivity | now rewrite IH]. Qed.

Lemma list_ascii_of_string_inj (a b : string) :
  list_ascii_of_string a = list_ascii_of_string b -> a = b.
Proof.
  intros H. rewrite <- (string_of_list_ascii_of_string a), <- (string_of_list_ascii_of_string b).
  now rewrite H.
Qed.

(** Two ObjectStores of one namespace with different names get different
    resource names, and two of one name in different namespaces too. *)
Theorem instanceName_injective :
  forall n1 n2 ns1 ns2 : string,
    instanceName n1 ns1 = instanceName n2 ns2 ->
    (ns1 = ns2 -> n1 = n2) /\ (n1 = n2 -> ns1 = ns2).
Proof.
  intros n1 n2 ns1 ns2 H. unfold instanceName, appName in H.
  apply (f_equal list_ascii_of_string) in H.
  rewrite !list_ascii_of_string_app in H. simpl in H.
  injection H as H.
  split; intros ->; apply list_ascii_of_string_inj.
  - apply (app_inv_tail (list_ascii_of_string ("-" ++ ns2))).
    rewrite list_ascii_of_string_app. exact H.
  - apply app_inv_head in H. simpl in H. injection H as H. exact H.
Qed.

Lemma instanceName_injective_witness :
  instanceName "a" "ns" = instanceName "a" "ns" /\
  (("ns" = "ns") -> "a" = "a") /\ ("a" = "a" -> "ns" = "ns").
Proof.
  split; [reflexivity |].
  apply (instanceName_injective "a" "a" "ns" "ns"). reflexivity.
Defined.

(* ----------------------------------------------------------------- *)
(** *** The pod template, the deployment and the service *)

(** The pod template wires its parts together: its one volume is bound
    to the claim createPVC creates; the init container and the daemon
    mount exactly that volume at the data directory, the init container
    chowns that same directory, both run the ObjectStore's image, and the
    pod runs as user and group 167 with file-system group 167. *)
Theorem makeRGWPodSpec_wiring :
  forall (os : ObjectStore) (tmpl : PersistentVolumeClaim),
    exists p v, makeRGWPodSpec os = Ok p /\
      Volumes (ptSpec p) = [v] /\
      ClaimName v = Some (Name (pvcMeta (buildPVC os tmpl))) /\
      Containers (ptSpec p) = [makeDaemonContainer os] /\
      Forall (fun c => VolumeMounts c = [mkVolumeMount (volName v) objectStoreDataDirectory] /\
                       Image c = osImage (osSpec os))
             (InitContainers (ptSpec p) ++ Containers (ptSpec p))%list /\
      Forall (fun c => last (Args c) "" = objectStoreDataDirectory) (InitContainers (ptSpec p)) /\
      podSecurityContext_ (ptSpec p) = Some (mkPodSecurityContext (Some 167) (Some 167) (Some 167)).
Proof.
  intros os tmpl. unfold makeRGWPodSpec.
  destruct (Container_eq_dec (makeDaemonContainer os) emptyContainer) as [H | H].
  - exfalso. exact (makeDaemonContainer_not_empty os H).
  - do 2 eexists. split; [reflexivity |].
    split; [reflexivity |]. split; [reflexivity |]. split; [reflexivity |].
    split; [| split; [repeat constructor | reflexivity]].
    repeat constructor.
Qed.

(** The service selects the pods of the deployment: the service
    selector, the deployment selector and the pod template labels are
    all [{object_store: <name>}], whatever the objects held before. *)
Theorem selectors_match_pod_labels :
  forall (os : ObjectStore) (svc : Service) (d : Deployment),
    exists svc1 d1,
      serviceMutate os svc = Ok svc1 /\ deploymentMutate os d = Ok d1 /\
      Labels_ (ptMeta (Template (depSpec d1))) = [("object_store", Name (osMeta os))] /\
      depSelector (depSpec d1) = Some (Labels_ (ptMeta (Template (depSpec d1)))) /\
      svcSelector (svcSpec svc1) = Labels_ (ptMeta (Template (depSpec d1))).
Proof.
  intros os svc d. destruct (makeRGWPodSpec_ok os) as [p Hp].
  pose proof Hp as Hp'. unfold makeRGWPodSpec in Hp'.
  destruct (Container_eq_dec (makeDaemonContainer os) emptyContainer); [discriminate |].
  injection Hp' as <-.
  unfold deploymentMutate. rewrite Hp.
  do 2 eexists. repeat split.
Qed.

(** The deployment step keeps the object's metadata and overrides the
    rest of its spec: one replica whatever the stored count, a rolling
    update with at most one pod unavailable and no surge. *)
Theorem deploymentMutate_pins_replicas_and_strategy :
  forall (os : ObjectStore) (d : Deployment),
    exists d1, deploymentMutate os d = Ok d1 /\
      depMeta d1 = depMeta d /\
      Replicas (depSpec d1) = Some 1 /\
      Strategy (depSpec d1) =
        mkDeploymentStrategy (Some RollingUpdateDeploymentStrategyType)
          (Some (mkRollingUpdateDeployment (Some (FromInt 1)) (Some (FromInt 0)))).
Proof.
  intros os d. destruct (makeRGWPodSpec_ok os) as [p Hp].
  unfold deploymentMutate. rewrite Hp. eexists. repeat split.
Qed.

(** The service step keeps the object's metadata and replaces its whole
    spec, so a cluster IP the stored service holds is cleared. *)
Theorem serviceMutate_resets_spec :
  forall (os : ObjectStore) (svc : Service),
    serviceMutate os svc =
      Ok (mkService (svcMeta svc)
            (mkServiceSpec [("object_store", Name (osMeta os))] [httpPort] "")).
Proof. reflexivity. Qed.

(* ----------------------------------------------------------------- *)
(** *** What the engine writes *)

(** A store call Reconcile may issue without touching the ObjectStore or
    deleting anything: a get, or a create or update of a dependent. *)
Definition callAllowed (c : Call) : bool :=
  match c with
  | CallGet _ _ => true
  | CallCreate KObjectStore _ | CallUpdate KObjectStore _ => false
  | CallCreate _ _ | CallUpdate _ _ => true
  | CallDelete _ _ => false
  end.

Definition outcomeWorld {St A : Type} (o : Outcome St A) : World St :=
  match o with Done _ w => w | Panicked _ w => w end.

(** A step that only appends allowed calls to the trace, whether it
    returns or panics. *)
Definition Safe {St A : Type} (m : M St A) : Prop :=
  forall w, exists ext, trace (outcomeWorld (m w)) = (trace w ++ ext)%list /\
                        forallb callAllowed ext = true.

Section Safety.
Variable St : Type.

Lemma safe_ret {A} (a : A) : Safe (ret St a).
Proof. intros w. exists []. rewrite app_nil_r. split; reflexivity. Qed.

Lemma safe_panic {A} (msg : string) : Safe (panic St (A := A) msg).
Proof. intros w. exists []. rewrite app_nil_r. split; reflexivity. Qed.

Lemma safe_bind {A B} (m : M St A) (f : A -> M St B) :
  Safe m -> (forall a, Safe (f a)) -> Safe (bind St m f).
Proof.
  intros Hm Hf w. unfold bind.
  destruct (Hm w) as [e1 [He1 Ha1]].
  destruct (m w) as [a w' | s w'] eqn:E; simpl in *.
  - destruct (Hf a w') as [e2 [He2 Ha2]].
    exists (e1 ++ e2)%list. rewrite He2, He1, app_assoc.
    split; [reflexivity |]. rewrite forallb_app, Ha1, Ha2. reflexivity.
  - exists e1. split; assumption.
Qed.

Lemma safe_Get storeGet (k : ObjKind) (key : NamespacedName) : Safe (Get St storeGet k key).
Proof. intros w. exists [CallGet k key]. split; reflexivity. Qed.

Lemma safe_Create storeCreate (k : ObjKind) (o : objType k) :
  k <> KObjectStore -> Safe (Create St storeCreate k o).
Proof.
  intros Hk w. unfold Create. destruct (storeCreate k o (store w)) as [r s'].
  exists [CallCreate k o]. split; [reflexivity |].
  destruct k; [contradiction | reflexivity ..].
Qed.

Lemma safe_Update storeUpdate (k : ObjKind) (o : objType k) :
  k <> KObjectStore -> Safe (Update St storeUpdate k o).
Proof.
  intros Hk w. unfold Update. destruct (storeUpdate k o (store w)) as [r s'].
  exists [CallUpdate k o]. split; [reflexivity |].
  destruct k; [contradiction | reflexivity ..].
Qed.

Ltac safe_step :=
  first
    [ apply safe_ret | apply safe_panic | apply safe_Get
    | apply safe_Create; discriminate | apply safe_Update; discriminate
    | apply safe_bind; [| intro]
    | match goal with
      | |- Safe (match ?x with _ => _ end) => destruct x
      | |- Safe (if ?x then _ else _) => destruct x
      end ].

Lemma safe_CreateOrUpdate storeGet storeCreate storeUpdate (k : ObjKind) obj f :
  k <> KObjectStore -> Safe (CreateOrUpdate St storeGet storeCreate storeUpdate k obj f).
Proof.
  intros Hk. unfold CreateOrUpdate. cbv zeta.
  apply safe_bind; [apply safe_Get | intros r].
  destruct r as [existing | e].
  - destruct (mutate k f (keyOf k obj) existing) as [o' | e']; [| apply safe_ret].
    destruct (objEqDec k existing o'); [apply safe_ret |].
    apply safe_bind; [apply safe_Update; exact Hk | intros u; destruct u; apply safe_ret].
  - destruct (negb (IsNotFound e)); [apply safe_ret |].
    destruct (mutate k f (keyOf k obj) obj) as [o' | e']; [| apply safe_ret].
    apply safe_bind; [apply safe_Create; exact Hk | intros c; destruct c; apply safe_ret].
Qed.

Lemma safe_createPVC storeCreate os : Safe (createPVC St storeCreate os).
Proof. unfold createPVC. cbv zeta. repeat safe_step. Qed.

Lemma safe_reconcileService storeGet storeCreate storeUpdate scr os :
  Safe (reconcileService St storeGet storeCreate storeUpdate scr os).
Proof.
  unfold reconcileService. cbv zeta.
  destruct (scr os _); [| apply safe_ret].
  apply safe_bind; [apply safe_CreateOrUpdate; discriminate |].
  intros r; destruct r as [[? ?] |]; apply safe_ret.
Qed.

Lemma safe_createOrUpdateDeployment storeGet storeCreate storeUpdate scr os :
  Safe (createOrUpdateDeployment St storeGet storeCreate storeUpdate scr os).
Proof.
  unfold createOrUpdateDeployment. cbv zeta.
  destruct (scr os _); [| apply safe_ret].
  apply safe_bind; [apply safe_CreateOrUpdate; discriminate |].
  intros r; destruct r as [[? ?] |]; apply safe_ret.
Qed.

End Safety.

(** Whatever the store answers, and whether Reconcile returns or panics,
    the calls it issues are gets and creates or updates of the claim,
    the service and the deployment: it never deletes anything and never
    writes the ObjectStore itself (so the finalizer it adds or removes in
    memory is not saved). *)
Theorem reconcile_never_deletes_or_writes_objectstore :
  forall (St : Type) storeGet storeCreate storeUpdate scr utl (req : NamespacedName) (w : World St),
    exists ext,
      trace (outcomeWorld (Reconcile St storeGet storeCreate storeUpdate scr utl req w)) =
        (trace w ++ ext)%list /\
      forallb callAllowed ext = true.
Proof.
  intros St storeGet storeCreate storeUpdate scr utl req.
  unfold Reconcile. cbv zeta.
  apply safe_bind; [apply safe_Get | intros r].
  destruct r as [os | e].
  - destruct (negb (IsZero _)); [apply safe_ret |].
    apply safe_bind; [apply safe_createPVC | intros e1].
    destruct e1; [apply safe_ret |].
    apply safe_bind; [apply safe_reconcileService | intros s].
    destruct s; [| apply safe_ret].
    apply safe_bind; [apply safe_createOrUpdateDeployment | intros d].
    destruct d; apply safe_ret.
  - destruct (IsNotFound e); apply safe_ret.
Qed.

(* ----------------------------------------------------------------- *)
(** *** Runs of Reconcile *)

(** Stepping through [bind]. *)
Lemma bind_Done {St A B} (m : M St A) (f : A -> M St B) w a w' :
  m w = Done a w' -> bind St m f w = f a w'.
Proof. intros H. unfold bind. now rewrite H. Qed.

Lemma bind_Panicked {St A B} (m : M St A) (f : A -> M St B) w s w' :
  m w = Panicked s w' -> bind St m f w = Panicked s w'.
Proof. intros H. unfold bind. now rewrite H. Qed.

(** The in-memory object after the finalizer step. *)
Lemma localObject_spec (os : ObjectStore) (f : string) :
  let lo := if negb (ContainsFinalizer os f) then AddFinalizer os f else os in
  osSpec lo = osSpec os /\ Name (osMeta lo) = Name (osMeta os) /\
  Namespace (osMeta lo) = Namespace (osMeta os) /\ ContainsFinalizer lo f = true.
Proof.
  cbv zeta. destruct (ContainsFinalizer os f) eqn:E; simpl.
  - repeat split; assumption.
  - unfold AddFinalizer. rewrite E. repeat split.
    unfold ContainsFinalizer, withFinalizers; simpl.
    rewrite existsb_app. simpl. rewrite String.eqb_refl. destruct existsb; reflexivity.
Qed.

(** An ObjectStore that is not being deleted and has no storage-claim
    template makes Reconcile panic in [createPVC], right after the get,
    before any write. *)
Theorem reconcile_nil_template_panics :
  forall (St : Type) (storeGet : forall k : ObjKind, NamespacedName -> St -> result (objType k))
         storeCreate storeUpdate scr utl (req : NamespacedName) (w : World St) (os : ObjectStore),
    storeGet KObjectStore req (store w) = Ok os ->
    IsZero (DeletionTimestamp (osMeta os)) = true ->
    VolumeClaimTemplate (osSpec os) = None ->
    exists msg, Reconcile St storeGet storeCreate storeUpdate scr utl req w =
                Panicked msg (mkWorld (store w) (trace w ++ [CallGet KObjectStore req])%list).
Proof.
  intros St storeGet storeCreate storeUpdate scr utl req w os Hget Hz Ht.
  unfold Reconcile.
  rewrite (bind_Done _ _ w (Ok os) (mkWorld (store w) (trace w ++ [CallGet KObjectStore req])%list))
    by (unfold Get; now rewrite Hget).
  cbv beta iota zeta. rewrite Hz. change (negb true) with false. cbv beta iota.
  destruct (localObject_spec os (buildFinalizerName utl (Kind (osTypeMeta os)))) as [Hs _].
  set (lo := if negb _ then _ else _) in *.
  eexists. apply bind_Panicked.
  unfold createPVC. rewrite Hs, Ht. reflexivity.
Qed.

Lemma NamespacedName_eqb_refl (n : NamespacedName) : NamespacedName_eqb n n = true.
Proof. unfold NamespacedName_eqb. now rewrite !String.eqb_refl. Qed.

(** The three paths of [controllerutil.CreateOrUpdate]. *)
Section CoU.
Variable St : Type.
Variable storeGet : forall k : ObjKind, NamespacedName -> St -> result (objType k).
Variable storeCreate storeUpdate : forall k : ObjKind, objType k -> St -> result (objType k) * St.

Lemma CreateOrUpdate_not_found (k : ObjKind) (obj obj' : objType k) f (w : World St) (e : Err) :
  storeGet k (keyOf k obj) (store w) = Error e -> IsNotFound e = true ->
  f obj = Ok obj' -> NamespacedName_eqb (keyOf k obj') (keyOf k obj) = true ->
  CreateOrUpdate St storeGet storeCreate storeUpdate k obj f w =
    Done (match fst (storeCreate k obj' (store w)) with
          | Error e' => Error e' | Ok o => Ok (OperationResultCreated, o) end)
         (mkWorld (snd (storeCreate k obj' (store w)))
                  (trace w ++ [CallGet k (keyOf k obj); CallCreate k obj'])%list).
Proof.
  intros Hg Hnf Hf Hk.
  unfold CreateOrUpdate, bind, Get, Create, mutate, ret. cbv zeta.
  simpl store. rewrite Hg, Hnf. cbv iota. rewrite Hf, Hk. simpl trace.
  change (negb true) with false. cbv beta iota. simpl store.
  match goal with |- context [storeCreate ?a ?b ?c] => destruct (storeCreate a b c) as [[o | e'] s'] end;
    simpl; now rewrite <- app_assoc.
Qed.

Lemma CreateOrUpdate_unchanged (k : ObjKind) (obj existing : objType k) f (w : World St) :
  storeGet k (keyOf k obj) (store w) = Ok existing ->
  f existing = Ok existing -> NamespacedName_eqb (keyOf k existing) (keyOf k obj) = true ->
  CreateOrUpdate St storeGet storeCreate storeUpdate k obj f w =
    Done (Ok (OperationResultUnchanged, existing))
         (mkWorld (store w) (trace w ++ [CallGet k (keyOf k obj)])%list).
Proof.
  intros Hg Hf Hk.
  unfold CreateOrUpdate, bind, Get, mutate, ret. cbv zeta.
  simpl store. rewrite Hg. cbv iota. rewrite Hf, Hk.
  destruct (objEqDec k existing existing) as [_ | n]; [reflexivity | contradiction].
Qed.

Lemma CreateOrUpdate_changed (k : ObjKind) (obj existing obj' : objType k) f (w : World St) :
  storeGet k (keyOf k obj) (store w) = Ok existing ->
  f existing = Ok obj' -> NamespacedName_eqb (keyOf k obj') (keyOf k obj) = true ->
  existing <> obj' ->
  CreateOrUpdate St storeGet storeCreate storeUpdate k obj f w =
    Done (match fst (storeUpdate k obj' (store w)) with
          | Error e' => Error e' | Ok o => Ok (OperationResultUpdated, o) end)
         (mkWorld (snd (storeUpdate k obj' (store w)))
                  (trace w ++ [CallGet k (keyOf k obj); CallUpdate k obj'])%list).
Proof.
  intros Hg Hf Hk Hne.
  unfold CreateOrUpdate, bind, Get, Update, mutate, ret. cbv zeta.
  simpl store. rewrite Hg. cbv iota. rewrite Hf, Hk.
  destruct (objEqDec k existing obj') as [Heq | _]; [contradiction |].
  simpl trace. simpl store.
  match goal with |- context [storeUpdate ?a ?b ?c] => destruct (storeUpdate a b c) as [[o | e'] s'] end;
    simpl; now rewrite <- app_assoc.
Qed.
End CoU.


(** The mutate closures keep the object's metadata. *)
Lemma serviceMutate_keeps_meta (os : ObjectStore) (s : Service) :
  exists s', serviceMutate os s = Ok s' /\ svcMeta s' = svcMeta s.
Proof. eexists; split; reflexivity. Qed.

Lemma deploymentMutate_keeps_meta (os : ObjectStore) (d : Deployment) :
  exists d', deploymentMutate os d = Ok d' /\ depMeta d' = depMeta d.
Proof.
  unfold deploymentMutate. destruct (makeRGWPodSpec_ok os) as [p Hp]. rewrite Hp.
  eexists; split; reflexivity.
Qed.

Lemma keyOf_meta (k : ObjKind) (a b : objType k) :
  metaOf k a = metaOf k b -> NamespacedName_eqb (keyOf k a) (keyOf k b) = true.
Proof. intros H. unfold keyOf. rewrite H. apply NamespacedName_eqb_refl. Qed.

Lemma buildPVC_meta (a b : ObjectStore) (t : PersistentVolumeClaim) :
  Name (osMeta a) = Name (osMeta b) -> Namespace (osMeta a) = Namespace (osMeta b) ->
  buildPVC a t = buildPVC b t.
Proof. intros H1 H2. unfold buildPVC. now rewrite H1, H2. Qed.

(** The outcome of [createPVC] when the template is set. *)
Lemma createPVC_result {St} storeCreate (os : ObjectStore) tmpl (w : World St) :
  VolumeClaimTemplate (osSpec os) = Some tmpl ->
  createPVC St storeCreate os w =
    Done (match fst (storeCreate KPVC (buildPVC os tmpl) (store w)) with
          | Ok _ => None
          | Error e =>
              if IsAlreadyExists e then None
              else Some (Wrapf ("failed to create PVC " ++
                                Quote (instanceName (Name (osMeta os)) (Namespace (osMeta os))) ++ ": ") e)
          end)
         (mkWorld (snd (storeCreate KPVC (buildPVC os tmpl) (store w)))
                  (trace w ++ [CallCreate KPVC (buildPVC os tmpl)])%list).
Proof.
  intros Ht. unfold createPVC, bind, Create, ret. rewrite Ht.
  destruct (storeCreate KPVC (buildPVC os tmpl) (store w)) as [[o | e] s']; simpl; [reflexivity |].
  destruct (IsAlreadyExists e); reflexivity.
Qed.

(** The calls of a trace, by operation and kind. *)
Inductive CallTag := TagGet | TagCreate | TagUpdate | TagDelete.

Definition callShape (c : Call) : CallTag * ObjKind :=
  match c with
  | CallGet k _ => (TagGet, k)
  | CallCreate k _ => (TagCreate, k)
  | CallUpdate k _ => (TagUpdate, k)
  | CallDelete k _ => (TagDelete, k)
  end.

(** The service and deployment steps on a store that holds neither. *)
Lemma reconcileService_fresh {St} storeGet storeCreate storeUpdate scr (os : ObjectStore) (w : World St) :
  (forall o m, exists m', scr o m = Ok m') ->
  (forall key, exists e, storeGet KService key (store w) = Error e /\ IsNotFound e = true) ->
  (forall o, exists o', fst (storeCreate KService o (store w)) = Ok o') ->
  exists ip w' key svc,
    reconcileService St storeGet storeCreate storeUpdate scr os w = Done (Ok ip) w' /\
    trace w' = (trace w ++ [CallGet KService key; CallCreate KService svc])%list.
Proof.
  intros Hscr Hg Hc. unfold reconcileService. cbv zeta.
  destruct (Hscr os (svcMeta (generateService os))) as [m Hm]. rewrite Hm.
  set (svc := mkService m (svcSpec (generateService os))).
  destruct (serviceMutate_keeps_meta os svc) as [svc' [Hf Hmeta]].
  destruct (Hg (keyOf KService svc)) as [e [He Hnf]].
  destruct (Hc svc') as [o Ho].
  rewrite (bind_Done _ _ w _ _
             (CreateOrUpdate_not_found St storeGet storeCreate storeUpdate KService svc svc'
                (serviceMutate os) w e He Hnf Hf (keyOf_meta KService svc' svc Hmeta))).
  rewrite Ho. do 4 eexists. split; reflexivity.
Qed.

Lemma createOrUpdateDeployment_fresh {St} storeGet storeCreate storeUpdate scr (os : ObjectStore)
    (w : World St) :
  (forall o m, exists m', scr o m = Ok m') ->
  (forall key, exists e, storeGet KDeployment key (store w) = Error e /\ IsNotFound e = true) ->
  (forall o, exists o', fst (storeCreate KDeployment o (store w)) = Ok o') ->
  exists op w' key dep,
    createOrUpdateDeployment St storeGet storeCreate storeUpdate scr os w = Done (Ok op) w' /\
    trace w' = (trace w ++ [CallGet KDeployment key; CallCreate KDeployment dep])%list.
Proof.
  intros Hscr Hg Hc. unfold createOrUpdateDeployment. cbv zeta.
  match goal with |- context [scr os ?mm] => destruct (Hscr os mm) as [dm Hm]; rewrite Hm end.
  match goal with |- context [CreateOrUpdate _ _ _ _ KDeployment ?d _] => set (dep := d) end.
  destruct (deploymentMutate_keeps_meta os dep) as [dep' [Hf Hmeta]].
  destruct (Hg (keyOf KDeployment dep)) as [e [He Hnf]].
  destruct (Hc dep') as [o Ho].
  rewrite (bind_Done _ _ w _ _
             (CreateOrUpdate_not_found St storeGet storeCreate storeUpdate KDeployment dep dep'
                (deploymentMutate os) w e He Hnf Hf (keyOf_meta KDeployment dep' dep Hmeta))).
  rewrite Ho. do 4 eexists. split; reflexivity.
Qed.

(** When the claim create fails with anything but AlreadyExists,
    Reconcile stops there: it returns the error wrapped twice, by
    [createPVC] and by Reconcile, and the service and deployment are not
    touched. *)
Theorem reconcile_pvc_create_failure_stops :
  forall (St : Type) (storeGet : forall k : ObjKind, NamespacedName -> St -> result (objType k))
         (storeCreate : forall k : ObjKind, objType k -> St -> result (objType k) * St)
         storeUpdate scr utl (req : NamespacedName) (w : World St)
         (os : ObjectStore) tmpl e (s' : St),
    storeGet KObjectStore req (store w) = Ok os ->
    IsZero (DeletionTimestamp (osMeta os)) = true ->
    VolumeClaimTemplate (osSpec os) = Some tmpl ->
    storeCreate KPVC (buildPVC os tmpl) (store w) = (Error e, s') ->
    IsAlreadyExists e = false ->
    exists os',
      Reconcile St storeGet storeCreate storeUpdate scr utl req w =
        Done (emptyResult,
              Some (Wrapf "failed to create PVC: "
                      (Wrapf ("failed to create PVC " ++
                              Quote (instanceName (Name (osMeta os)) (Namespace (osMeta os))) ++ ": ") e)),
              os')
             (mkWorld s' (trace w ++ [CallGet KObjectStore req; CallCreate KPVC (buildPVC os tmpl)])%list) /\
      ContainsFinalizer os' (buildFinalizerName utl (Kind (osTypeMeta os))) = true.
Proof.
  intros St storeGet storeCreate storeUpdate scr utl req w os tmpl e s' Hget Hz Ht Hc Hae.
  unfold Reconcile.
  rewrite (bind_Done _ _ w (Ok os) (mkWorld (store w) (trace w ++ [CallGet KObjectStore req])%list))
    by (unfold Get; now rewrite Hget).
  cbv beta iota zeta. rewrite Hz. change (negb true) with false. cbv beta iota.
  destruct (localObject_spec os (buildFinalizerName utl (Kind (osTypeMeta os)))) as (Hs & Hn & Hns & Hf).
  set (lo := if negb _ then _ else _) in *.
  exists lo.
  rewrite (bind_Done _ _ _ _ _ (createPVC_result storeCreate lo tmpl _ (eq_trans (f_equal VolumeClaimTemplate Hs) Ht))).
  rewrite (buildPVC_meta lo os tmpl Hn Hns). cbn [store]. rewrite Hc. cbn [fst snd]. rewrite Hae, Hn, Hns. cbv beta iota.
  split; [| exact Hf]. unfold ret. cbn [trace]. now rewrite <- app_assoc.
Qed.

(** On a store that answers NotFound for services and deployments, lets
    every create succeed (the claim's may report AlreadyExists), and an
    owner reference that can always be set, Reconcile returns the empty
    result with a nil error after exactly six calls, in this order: get the
    ObjectStore, create the claim, get and create the service, get and
    create the deployment. Its copy of the object carries the finalizer. *)
Theorem reconcile_success_call_order :
  forall (St : Type) (storeGet : forall k : ObjKind, NamespacedName -> St -> result (objType k))
         (storeCreate : forall k : ObjKind, objType k -> St -> result (objType k) * St)
         storeUpdate scr utl (req : NamespacedName) (w : World St) (os : ObjectStore),
    storeGet KObjectStore req (store w) = Ok os ->
    IsZero (DeletionTimestamp (osMeta os)) = true ->
    VolumeClaimTemplate (osSpec os) <> None ->
    (forall k key s, k <> KObjectStore ->
       exists e, storeGet k key s = Error e /\ IsNotFound e = true) ->
    (forall k o s, k <> KObjectStore ->
       match fst (storeCreate k o s) with
       | Ok _ => True
       | Error e => k = KPVC /\ IsAlreadyExists e = true
       end) ->
    (forall o m, exists m', scr o m = Ok m') ->
    exists os' w',
      Reconcile St storeGet storeCreate storeUpdate scr utl req w = Done (emptyResult, None, os') w' /\
      map callShape (trace w') =
        (map callShape (trace w) ++
         [(TagGet, KObjectStore); (TagCreate, KPVC); (TagGet, KService); (TagCreate, KService);
          (TagGet, KDeployment); (TagCreate, KDeployment)])%list /\
      ContainsFinalizer os' (buildFinalizerName utl (Kind (osTypeMeta os))) = true /\
      osSpec os' = osSpec os.
Proof.
  intros St storeGet storeCreate storeUpdate scr utl req w os Hget Hz Ht Habs Hcr Hscr.
  destruct (VolumeClaimTemplate (osSpec os)) as [tmpl |] eqn:Htm; [| contradiction].
  assert (Hok : forall k o s, k = KService \/ k = KDeployment -> exists o', fst (storeCreate k o s) = Ok o').
  { intros k o s Hk. assert (Hk' : k <> KObjectStore) by (destruct Hk; subst; discriminate).
    specialize (Hcr k o s Hk'). destruct (fst (storeCreate k o s)) as [o' | e].
    - exists o'. reflexivity.
    - destruct Hcr as [-> _]. destruct Hk; discriminate. }
  unfold Reconcile.
  rewrite (bind_Done _ _ w (Ok os) (mkWorld (store w) (trace w ++ [CallGet KObjectStore req])%list))
    by (unfold Get; now rewrite Hget).
  cbv beta iota zeta. rewrite Hz. change (negb true) with false. cbv beta iota.
  destruct (localObject_spec os (buildFinalizerName utl (Kind (osTypeMeta os)))) as (Hs & Hn & Hns & Hf).
  set (lo := if negb _ then _ else _) in *.
  rewrite (bind_Done _ _ _ _ _ (createPVC_result storeCreate lo tmpl _ (eq_trans (f_equal VolumeClaimTemplate Hs) Htm))).
  simpl store.
  assert (Hpvc := Hcr KPVC (buildPVC lo tmpl) (store w) ltac:(discriminate)).
  match goal with |- context [match ?x with Ok _ => None | Error _ => _ end] =>
    replace x with (fst (storeCreate KPVC (buildPVC lo tmpl) (store w))) by reflexivity;
    destruct (fst (storeCreate KPVC (buildPVC lo tmpl) (store w))) as [o1 | e1];
    [| destruct Hpvc as [_ Hae]; rewrite Hae] end.
  all: cbv beta iota.
  all: set (w1 := mkWorld (snd (storeCreate KPVC (buildPVC lo tmpl) (store w)))
                     ((trace w ++ [CallGet KObjectStore req]) ++ [CallCreate KPVC (buildPVC lo tmpl)])%list).
  all: destruct (reconcileService_fresh storeGet storeCreate storeUpdate scr lo w1 Hscr
                   (fun key => Habs KService key (store w1) ltac:(discriminate))
                   (fun o => Hok KService o (store w1) (or_introl eq_refl)))
         as (ip & w2 & k2 & svc & Hsv & Htr2).
  all: rewrite (bind_Done _ _ _ _ _ Hsv); cbv beta iota.
  all: destruct (createOrUpdateDeployment_fresh storeGet storeCreate storeUpdate scr lo w2 Hscr
                   (fun key => Habs KDeployment key (store w2) ltac:(discriminate))
                   (fun o => Hok KDeployment o (store w2) (or_intror eq_refl)))
         as (op & w3 & k3 & dep & Hdp & Htr3).
  all: rewrite (bind_Done _ _ _ _ _ Hdp); cbv beta iota.
  all: exists lo, w3; split; [reflexivity |]; split; [| split; assumption].
  all: rewrite Htr3, Htr2; simpl trace; rewrite !map_app; simpl; now rewrite <- !app_assoc.
Qed.

(** Once the stored service has an allocated cluster IP, the service step
    never finds it unchanged: the mutate closure replaces the whole spec,
    so it issues an update whose cluster IP is empty, with the stored
    metadata, the one http port and the [object_store] selector. *)
Theorem reconcileService_blanks_clusterIP :
  forall (St : Type) (storeGet : forall k : ObjKind, NamespacedName -> St -> result (objType k))
         (storeCreate storeUpdate : forall k : ObjKind, objType k -> St -> result (objType k) * St)
         scr (os : ObjectStore) (w : World St)
         (m : ObjectMeta) (existing : Service),
    scr os (svcMeta (generateService os)) = Ok m ->
    storeGet KService (mkNamespacedName (Namespace m) (Name m)) (store w) = Ok existing ->
    Name (svcMeta existing) = Name m -> Namespace (svcMeta existing) = Namespace m ->
    ClusterIP (svcSpec existing) <> "" ->
    exists svc' r w',
      reconcileService St storeGet storeCreate storeUpdate scr os w = Done r w' /\
      trace w' = (trace w ++ [CallGet KService (mkNamespacedName (Namespace m) (Name m));
                              CallUpdate KService svc'])%list /\
      svcMeta svc' = svcMeta existing /\
      ClusterIP (svcSpec svc') = "" /\
      Ports (svcSpec svc') = [httpPort] /\
      svcSelector (svcSpec svc') = [("object_store", Name (osMeta os))].
Proof.
  intros St storeGet storeCreate storeUpdate scr os w m existing Hm Hg Hn Hns Hip.
  unfold reconcileService. cbv zeta. rewrite Hm.
  set (svc := mkService m (svcSpec (generateService os))).
  set (svc' := mkService (svcMeta existing)
                 (mkServiceSpec [("object_store", Name (osMeta os))] [httpPort] "")).
  assert (Hf : serviceMutate os existing = Ok svc') by reflexivity.
  assert (Hk : NamespacedName_eqb (keyOf KService svc') (keyOf KService svc) = true).
  { unfold keyOf; simpl. rewrite Hn, Hns. apply NamespacedName_eqb_refl. }
  assert (Hne : existing <> svc').
  { intros Heq. apply Hip. rewrite Heq. reflexivity. }
  rewrite (bind_Done _ _ w _ _
             (CreateOrUpdate_changed St storeGet storeCreate storeUpdate KService svc existing svc'
                (serviceMutate os) w Hg Hf Hk Hne)).
  destruct (fst (storeUpdate KService svc' (store w))) as [o | e'];
    do 3 eexists; (split; [reflexivity |]); repeat split; reflexivity.
Qed.

(** A stored deployment that the mutate closure leaves as it is is not
    written: the deployment step reports [unchanged] after the get alone. *)
Theorem createOrUpdateDeployment_fixed_point_not_written :
  forall (St : Type) (storeGet : forall k : ObjKind, NamespacedName -> St -> result (objType k))
         (storeCreate storeUpdate : forall k : ObjKind, objType k -> St -> result (objType k) * St)
         scr (os : ObjectStore) (w : World St)
         (dm : ObjectMeta) (existing : Deployment),
    scr os (mkObjectMeta (instanceName (Name (osMeta os)) (Namespace (osMeta os))) (Namespace (osMeta os))
                         (getLabels (Name (osMeta os)) (Namespace (osMeta os)) true) [] None []) = Ok dm ->
    storeGet KDeployment (mkNamespacedName (Namespace dm) (Name dm)) (store w) = Ok existing ->
    deploymentMutate os existing = Ok existing ->
    Name (depMeta existing) = Name dm -> Namespace (depMeta existing) = Namespace dm ->
    createOrUpdateDeployment St storeGet storeCreate storeUpdate scr os w =
      Done (Ok OperationResultUnchanged)
           (mkWorld (store w) (trace w ++ [CallGet KDeployment (mkNamespacedName (Namespace dm) (Name dm))])%list).
Proof.
  intros St storeGet storeCreate storeUpdate scr os w dm existing Hscr Hg Hf Hn Hns.
  unfold createOrUpdateDeployment. cbv zeta.
  match goal with |- context [scr os ?mm] =>
    replace (scr os mm) with (Ok dm : result ObjectMeta) by exact (eq_sym Hscr) end.
  match goal with |- context [CreateOrUpdate _ _ _ _ KDeployment ?d _] => set (dep := d) end.
  assert (Hk : NamespacedName_eqb (keyOf KDeployment existing) (keyOf KDeployment dep) = true).
  { unfold keyOf; simpl. rewrite Hn, Hns. apply NamespacedName_eqb_refl. }
  rewrite (bind_Done _ _ w _ _
             (CreateOrUpdate_unchanged St storeGet storeCreate storeUpdate KDeployment dep existing
                (deploymentMutate os) w Hg Hf Hk)).
  reflexivity.
Qed.

(** The bucket Reconcile returns an error only when the controller ran and
    failed; the error is that run's error, wrapped, and the result asks for
    an immediate requeue. Without an error the result is empty; a panic
    comes only from a nil controller. *)
Theorem bucketReconcile_error_requeues :
  forall (RestConfig Controller : Type) NewProvisioner (RunWithContext : Controller -> option Err)
         (rc : RestConfig),
    match BucketController.bucketReconcile RestConfig Controller NewProvisioner RunWithContext rc with
    | BucketController.BReturn r (Some e) =>
        Requeue r = true /\
        exists bc inner, fst (NewProvisioner rc BucketController.bucketProvisionerName
                                BucketController.mkProvisioner "") = Some bc /\
                         RunWithContext bc = Some inner /\
                         e = Wrapf "failed to run bucket controller: " inner
    | BucketController.BReturn r None => r = emptyResult
    | BucketController.BPanic _ =>
        fst (NewProvisioner rc BucketController.bucketProvisionerName BucketController.mkProvisioner "") = None
    end.
Proof.
  intros RestConfig Controller NP RWC rc. unfold BucketController.bucketReconcile. cbv zeta.
  destruct (NP rc BucketController.bucketProvisionerName BucketController.mkProvisioner "") as [[bc |] err].
  - destruct (RWC bc) as [inner |] eqn:Hr; [| reflexivity].
    split; [reflexivity |]. exists bc, inner. repeat split; assumption || reflexivity.
  - reflexivity.
Qed.

(** The error [NewProvisioner] returns is ignored: two provisioners that
    give the same controller give the same outcome. *)
Theorem bucketReconcile_ignores_provisioner_error :
  forall (RestConfig Controller : Type) NP1 NP2 (RunWithContext : Controller -> option Err)
         (rc : RestConfig),
    (forall rc' name p ns, fst (NP1 rc' name p ns) = fst (NP2 rc' name p ns)) ->
    BucketController.bucketReconcile RestConfig Controller NP1 RunWithContext rc =
    BucketController.bucketReconcile RestConfig Controller NP2 RunWithContext rc.
Proof.
  intros RestConfig Controller NP1 NP2 RWC rc H. unfold BucketController.bucketReconcile. cbv zeta.
  specialize (H rc BucketController.bucketProvisionerName BucketController.mkProvisioner "").
  destruct (NP1 rc _ _ _) as [c1 e1], (NP2 rc _ _ _) as [c2 e2]. simpl in H. now subst.
Qed.

(** The bucket controller's event filter lets every event through: only
    [CreateFunc] is set, and it returns true. *)
Theorem predicateController_admits_all :
  forall e, BucketController.admits BucketController.predicateController e = true.
Proof. intros [k o]. destruct k; reflexivity. Qed.

(* ----------------------------------------------------------------- *)
(** *** Instances *)

(** An ObjectStore without a storage-claim template. *)
Definition storeNoTemplate : ObjectStore :=
  mkObjectStore (mkTypeMeta "ObjectStore" "object.rook-s3-nano/v1alpha1")
    (mkObjectMeta "store" "ns" [] [] None [])
    (mkObjectStoreSpec "quay.io/ceph/ceph" (mkGatewaySpec 0) None)
    (mkObjectStoreStatus "").

(** A store whose claim creation fails. *)
Definition pvcCreateFails : forall k : ObjKind, objType k -> unit -> result (objType k) * unit :=
  fun k => match k return objType k -> unit -> result (objType k) * unit with
           | KPVC => fun _ s => (Error (ErrOther "exceeded quota"), s)
           | _ => fun o s => (Ok o, s)
           end.

(** A store holding one object of kind [KService], resp. [KDeployment]. *)
Definition getService (svc : Service) : forall k : ObjKind, NamespacedName -> unit -> result (objType k) :=
  fun k => match k return NamespacedName -> unit -> result (objType k) with
           | KService => fun _ _ => Ok svc
           | _ => fun _ _ => Error (ErrNotFound "")
           end.

Definition getDeployment (d : Deployment) : forall k : ObjKind, NamespacedName -> unit -> result (objType k) :=
  fun k => match k return NamespacedName -> unit -> result (objType k) with
           | KDeployment => fun _ _ => Ok d
           | _ => fun _ _ => Error (ErrNotFound "")
           end.

(** The service as the API server returns it, with an allocated cluster IP. *)
Definition allocatedService : Service :=
  mkService (svcMeta expectedService) (mkServiceSpec [("object_store", "store")] [httpPort] "10.96.0.12").

(** The deployment as the mutate closure leaves it. *)
Definition settledDeployment : Deployment :=
  match deploymentMutate storeWithTemplate
          (mkDeployment (mkObjectMeta "rgw-store-ns" "ns" [("object_store", "store")] [] None [])
                        emptyDeploymentSpec) with
  | Ok d => d
  | Error _ => mkDeployment emptyMeta emptyDeploymentSpec
  end.

Lemma reconcile_nil_template_panics_witness :
  getReturns storeNoTemplate KObjectStore reqStore tt = Ok storeNoTemplate /\
  IsZero (DeletionTimestamp (osMeta storeNoTemplate)) = true /\
  VolumeClaimTemplate (osSpec storeNoTemplate) = None /\
  exists msg, Reconcile unit (getReturns storeNoTemplate) echoCreate echoCreate noSetOwner (fun s => s)
                        reqStore (mkWorld tt []) =
              Panicked msg (mkWorld tt ([] ++ [CallGet KObjectStore reqStore])%list).
Proof.
  split; [reflexivity |]. split; [reflexivity |]. split; [reflexivity |].
  apply (reconcile_nil_template_panics unit (getReturns storeNoTemplate) echoCreate echoCreate
           noSetOwner (fun s => s) reqStore (mkWorld tt []) storeNoTemplate); reflexivity.
Defined.

Lemma reconcile_pvc_create_failure_stops_witness :
  IsAlreadyExists (ErrOther "exceeded quota") = false /\
  exists os',
    Reconcile unit (getReturns storeWithTemplate) pvcCreateFails echoCreate noSetOwner (fun s => s)
              reqStore (mkWorld tt []) =
      Done (emptyResult,
            Some (Wrapf "failed to create PVC: "
                    (Wrapf ("failed to create PVC " ++ Quote "rgw-store-ns" ++ ": ") (ErrOther "exceeded quota"))),
            os')
           (mkWorld tt ([] ++ [CallGet KObjectStore reqStore;
                               CallCreate KPVC (buildPVC storeWithTemplate blockTemplate)])%list) /\
    ContainsFinalizer os' (buildFinalizerName (fun s => s) "ObjectStore") = true.
Proof.
  split; [reflexivity |].
  apply (reconcile_pvc_create_failure_stops unit (getReturns storeWithTemplate) pvcCreateFails echoCreate
           noSetOwner (fun s => s) reqStore (mkWorld tt []) storeWithTemplate blockTemplate
           (ErrOther "exceeded quota") tt); reflexivity.
Defined.

Lemma reconcile_success_call_order_witness :
  exists os' w',
    Reconcile unit (getReturns storeWithTemplate) echoCreate echoCreate noSetOwner (fun s => s)
              reqStore (mkWorld tt []) = Done (emptyResult, None, os') w' /\
    map callShape (trace w') =
      (map callShape [] ++
       [(TagGet, KObjectStore); (TagCreate, KPVC); (TagGet, KService); (TagCreate, KService);
        (TagGet, KDeployment); (TagCreate, KDeployment)])%list /\
    ContainsFinalizer os' (buildFinalizerName (fun s => s) "ObjectStore") = true /\
    osSpec os' = osSpec storeWithTemplate.
Proof.
  apply (reconcile_success_call_order unit (getReturns storeWithTemplate) echoCreate echoCreate
           noSetOwner (fun s => s) reqStore (mkWorld tt []) storeWithTemplate).
  - reflexivity.
  - reflexivity.
  - discriminate.
  - intros k key s Hk. destruct k; [contradiction | eexists; split; reflexivity ..].
  - intros k o s _. exact I.
  - intros o m. exists m. reflexivity.
Defined.

Lemma reconcileService_blanks_clusterIP_witness :
  ClusterIP (svcSpec allocatedService) <> "" /\
  exists svc' r w',
    reconcileService unit (getService allocatedService) echoCreate echoCreate noSetOwner storeWithTemplate
                     (mkWorld tt []) = Done r w' /\
    trace w' = ([] ++ [CallGet KService (mkNamespacedName "ns" "rgw-store-ns"); CallUpdate KService svc'])%list /\
    svcMeta svc' = svcMeta allocatedService /\
    ClusterIP (svcSpec svc') = "" /\
    Ports (svcSpec svc') = [httpPort] /\
    svcSelector (svcSpec svc') = [("object_store", "store")].
Proof.
  split; [discriminate |].
  apply (reconcileService_blanks_clusterIP unit (getService allocatedService) echoCreate echoCreate
           noSetOwner storeWithTemplate (mkWorld tt []) (svcMeta (generateService storeWithTemplate))
           allocatedService); [reflexivity .. | discriminate].
Defined.

Lemma createOrUpdateDeployment_fixed_point_not_written_witness :
  deploymentMutate storeWithTemplate settledDeployment = Ok settledDeployment /\
  createOrUpdateDeployment unit (getDeployment settledDeployment) echoCreate echoCreate noSetOwner
                           storeWithTemplate (mkWorld tt []) =
    Done (Ok OperationResultUnchanged)
         (mkWorld tt ([] ++ [CallGet KDeployment (mkNamespacedName "ns" "rgw-store-ns")])%list).
Proof.
  split; [vm_compute; reflexivity |].
  apply (createOrUpdateDeployment_fixed_point_not_written unit (getDeployment settledDeployment)
           echoCreate echoCreate noSetOwner storeWithTemplate (mkWorld tt [])
           (mkObjectMeta "rgw-store-ns" "ns" [("object_store", "store")] [] None []) settledDeployment);
    vm_compute; reflexivity.
Defined.

Lemma bucketReconcile_ignores_provisioner_error_witness :
  BucketController.bucketReconcile unit unit (fun _ _ _ _ => (Some tt, None)) (fun _ => None) tt =
  BucketController.bucketReconcile unit unit (fun _ _ _ _ => (Some tt, Some (ErrOther "deprecated")))
                                   (fun _ => None) tt.
Proof.
  apply (bucketReconcile_ignores_provisioner_error unit unit (fun _ _ _ _ => (Some tt, None))
           (fun _ _ _ _ => (Some tt, Some (ErrOther "deprecated"))) (fun _ => None) tt).
  intros; reflexivity.
Defined.

End Extras.
